(** * Wireless API serializers (netbox/wireless/api/serializers.py)

    The source file is declarative: two serializer classes, each a [Meta]
    (backing model and ordered field allow-list) plus explicitly declared
    fields.  Their behaviour is what Django REST framework's
    [ModelSerializer] does with such a declaration.  This development embeds

    - the values involved (Python objects being serialized, JSON documents);
    - the declarations of the source file, name for name;
    - the framework's read path ([Serializer.to_representation]) and write
      path ([Serializer.to_internal_value], [ModelSerializer.create]) as
      functions over a declaration;
    - the collaborators the source imports but does not define (models,
      nested serializers, the base serializer), each marked where it is
      introduced. *)

From Stdlib Require Import String Ascii ZArith List Bool DecimalString.
Import ListNotations.
Local Open Scope string_scope.
Set Warnings "-register-all".

(* ===================================================================== *)
(** * Values *)
(* ===================================================================== *)

(** Python values reachable from a model instance.  An [instance] carries
    the name of its model class, its primary key ([None] until saved), the
    result of [str(obj)] and its remaining attributes in definition order. *)
Inductive pyval : Type :=
| VNone
| VInt (n : Z)
| VStr (s : string)
| VObj (o : instance)
with instance : Type :=
| Instance (model_name : string) (pk : option Z) (label : string)
           (attrs : list (string * pyval)).

(** JSON-like representation; an object is an ordered mapping (the
    framework builds an ordered dict, so key order is observable). *)
Inductive json : Type :=
| JNull
| JBool (b : bool)
| JInt (n : Z)
| JStr (s : string)
| JObj (members : list (string * json)).

Definition representation := list (string * json).

(** Exceptions leaving the serializer. [ValidationError] carries the
    per-field error codes in field order. *)
Inductive exn : Type :=
| AssertionError (msg : string)
| ImproperlyConfigured (msg : string)
| AttributeError (name : string)
| TypeError (msg : string)
| NotImplementedError (msg : string)
| IntegrityError (column : string)
| RecursionError
| ValidationError (detail : list (string * string)).

Definition result (A : Type) : Type := exn + A.

Definition ret {A} (a : A) : result A := inr a.
Definition raise {A} (e : exn) : result A := inl e.
Definition bind {A B} (m : result A) (k : A -> result B) : result B :=
  match m with
  | inl e => inl e
  | inr a => k a
  end.

Notation "x <- m ;; k" := (bind m (fun x => k))
  (at level 61, m at next level, right associativity).

(** ** Association lists and attribute access *)

Fixpoint assoc {A} (k : string) (l : list (string * A)) : option A :=
  match l with
  | [] => None
  | (k', v) :: l' => if String.eqb k k' then Some v else assoc k l'
  end.

Definition keys {A} (l : list (string * A)) : list string := map fst l.

Definition pk_of (o : instance) : option Z :=
  let '(Instance _ pk _ _) := o in pk.

Definition str_of (o : instance) : string :=
  let '(Instance _ _ label _) := o in label.

Definition model_of (o : instance) : string :=
  let '(Instance m _ _ _) := o in m.

Definition attrs_of (o : instance) : list (string * pyval) :=
  let '(Instance _ _ _ attrs) := o in attrs.

Definition pk_value (o : instance) : pyval :=
  match pk_of o with
  | Some n => VInt n
  | None => VNone
  end.

(** [getattr(obj, name)]: [None] stands for [AttributeError].  [id] and
    [pk] both name the primary key. *)
Definition getattr (o : instance) (name : string) : option pyval :=
  if String.eqb name "id" || String.eqb name "pk" then Some (pk_value o)
  else assoc name (attrs_of o).

(** ** Strings *)

(** [str(n)] for an integer. *)
Definition str_int (n : Z) : string := NilZero.string_of_int (Z.to_int n).

(** [str(value)] as used by [CharField.to_representation]. *)
Definition py_str (v : pyval) : string :=
  match v with
  | VNone => "None"
  | VInt n => str_int n
  | VStr s => s
  | VObj o => str_of o
  end.

(** [c.isspace()] on the code points below 256. *)
Definition isspace (c : ascii) : bool :=
  let n := nat_of_ascii c in
  (((9 <=? n) && (n <=? 13)) || ((28 <=? n) && (n <=? 32))
   || (n =? 133) || (n =? 160))%nat.

Fixpoint lstrip (s : string) : string :=
  match s with
  | EmptyString => EmptyString
  | String c s' => if isspace c then lstrip s' else s
  end.

Fixpoint rev_string (acc s : string) : string :=
  match s with
  | EmptyString => acc
  | String c s' => rev_string (String c acc) s'
  end.

Definition rstrip (s : string) : string :=
  rev_string "" (lstrip (rev_string "" s)).

(** [s.strip()] *)
Definition strip (s : string) : string := rstrip (lstrip s).

Fixpoint has_null_char (s : string) : bool :=
  match s with
  | EmptyString => false
  | String c s' => (nat_of_ascii c =? 0)%nat || has_null_char s'
  end.

(* ===================================================================== *)
(** * Collaborators *)
(* ===================================================================== *)

(** The request context of a serializer: the request (its absolute base
    URI; [None] when the context holds no request) and the URL routing
    layer resolving a view name and a primary key to a path ([None] is
    [NoReverseMatch]). *)
Record context : Type := {
  request : option string;
  reverse : string -> Z -> option string
}.

(** The persistence layer, as far as the write path consults it: lookup of
    an entity of a model by identifier, the identifier given to the next
    created row of a model, and the entity's own label rule [__str__]. *)
Record persistence : Type := {
  objects : string -> Z -> option instance;
  next_pk : string -> Z;
  label_rule : string -> list (string * pyval) -> string
}.

(** ** Model classes *)

Module models.

Inductive Field : Type :=
| AutoField
| CharField (blank : bool)
| ForeignKey (to : string) (null : bool).

Record Model : Type := {
  name : string;
  fields : list (string * Field)
}.

(** The value Django stores for a field that the constructor was not
    given: the empty string for a character field, [None] for a nullable
    relation; a mandatory relation has none. *)
Definition get_default (f : Field) : option pyval :=
  match f with
  | AutoField => Some VNone
  | CharField _ => Some (VStr "")
  | ForeignKey _ true => Some VNone
  | ForeignKey _ false => None
  end.

End models.

(** Modelled from the spec: [wireless.models.WirelessLAN], imported by the
    source through [from wireless.models import *] and not part of it.
    Section 3: a system-assigned identifier, a required network name, an
    optional free-text description, an optional nullable VLAN reference. *)
Definition WirelessLAN : models.Model :=
  {| models.name := "WirelessLAN";
     models.fields :=
       [ ("id", models.AutoField);
         ("ssid", models.CharField false);
         ("description", models.CharField true);
         ("vlan", models.ForeignKey "VLAN" true) ] |}.

(** Modelled from the spec: [ipam.models.VLAN] and [dcim.models.Interface],
    the targets of the nested references; only their identifier is used. *)
Definition VLAN : models.Model :=
  {| models.name := "VLAN"; models.fields := [ ("id", models.AutoField) ] |}.

Definition Interface : models.Model :=
  {| models.name := "Interface";
     models.fields := [ ("id", models.AutoField) ] |}.

(** ** Serializer fields and classes *)

Module serializers.

(** The field classes a declaration of this file can hold.
    [IntegerField] is the read-only field the framework builds for an
    [AutoField]; [CharField] trims whitespace (the framework default);
    [Nested] is a nested serializer used as a field. *)
Inductive Field : Type :=
| IntegerField
| CharField (required allow_blank : bool)
| HyperlinkedIdentityField (view_name : string)
| SerializerMethodField
| Nested (cls : Serializer) (required allow_null : bool)
with Serializer : Type :=
| Class (Meta_model : models.Model) (Meta_fields : list string)
        (declared_fields : list (string * Field)).

Definition Meta_model (c : Serializer) : models.Model :=
  let '(Class m _ _) := c in m.

Definition Meta_fields (c : Serializer) : list string :=
  let '(Class _ fs _) := c in fs.

Definition declared_fields (c : Serializer) : list (string * Field) :=
  let '(Class _ _ d) := c in d.

Definition read_only (f : Field) : bool :=
  match f with
  | IntegerField | HyperlinkedIdentityField _ | SerializerMethodField => true
  | _ => false
  end.

(** [Field.__init__]: [required] defaults to "no default and not
    read-only". *)
Definition required (f : Field) : bool :=
  match f with
  | CharField r _ | Nested _ r _ => r
  | _ => false
  end.

Definition allow_null (f : Field) : bool :=
  match f with
  | Nested _ _ n => n
  | _ => false
  end.

(** [source='*']: the field is handed the whole object. *)
Definition source_star (f : Field) : bool :=
  match f with
  | HyperlinkedIdentityField _ | SerializerMethodField => true
  | _ => false
  end.

(** [ModelSerializer.build_field] for a name of [Meta.fields] that has no
    declared field: a model field gives a standard field ([required] is
    dropped when the model field may be blank), any other name is a
    configuration error.  Both classes of this file declare their
    relational fields themselves; the field the framework would build
    for a bare relation is left out of this development. *)
Definition build_field (model : models.Model) (field_name : string)
  : result Field :=
  match assoc field_name (models.fields model) with
  | Some models.AutoField => ret IntegerField
  | Some (models.CharField blank) => ret (CharField (negb blank) blank)
  | Some (models.ForeignKey to _) => raise (NotImplementedError to)
  | None => raise (ImproperlyConfigured field_name)
  end.

(** [ModelSerializer.get_fields]: one field per name of [Meta.fields], in
    that order; a declared field wins over the model's. *)
Fixpoint get_fields_from (model : models.Model)
    (declared : list (string * Field)) (names : list string)
  : result (list (string * Field)) :=
  match names with
  | [] => ret []
  | n :: names' =>
      f <- match assoc n declared with
           | Some f => ret f
           | None => build_field model n
           end ;;
      rest <- get_fields_from model declared names' ;;
      ret ((n, f) :: rest)
  end.

Definition get_fields (c : Serializer) : result (list (string * Field)) :=
  get_fields_from (Meta_model c) (declared_fields c) (Meta_fields c).

(** Nesting depth of a declaration: 1 for a class without nested
    serializers. *)
Fixpoint depth (c : Serializer) : nat :=
  match c with
  | Class _ _ declared =>
      S (fold_right Nat.max 0%nat
           (map (fun nf => match nf with
                           | (_, Nested c' _ _) => depth c'
                           | _ => 0%nat
                           end) declared))
  end.

End serializers.

Import serializers.

(* ===================================================================== *)
(** * The declarations of the source file *)
(* ===================================================================== *)

(** Modelled from the spec: [netbox.api.serializers.PrimaryModelSerializer],
    the base class of both serializers, imported and not part of the source.
    Section 6: "a generic primary model base contract supplying common
    read-only fields (id, display)"; section 4.1: the display field is the
    entity's own human-readable label.  [id] comes from the model; [display]
    is the declared field the subclasses inherit. *)
Definition PrimaryModelSerializer : list (string * Field) :=
  [ ("display", SerializerMethodField) ].

(** Modelled from the spec: [ipam.api.serializers.NestedVLANSerializer] and
    [dcim.api.serializers.NestedInterfaceSerializer], imported and not part
    of the source.  Section 3: a nested reference is the "minimal subset of
    a related entity's fields (identifier, self-link URL, display label)",
    produced by "the same serializer logic ... restricted to the minimal
    field subset".  The view names follow the [<app>-api:<model>-detail]
    pattern of the two view names of the source, with the application
    taken from the import lines. *)
Definition NestedVLANSerializer : Serializer :=
  Class VLAN [ "id"; "url"; "display" ]
    (("url", HyperlinkedIdentityField "ipam-api:vlan-detail")
       :: PrimaryModelSerializer).

Definition NestedInterfaceSerializer : Serializer :=
  Class Interface [ "id"; "url"; "display" ]
    (("url", HyperlinkedIdentityField "dcim-api:interface-detail")
       :: PrimaryModelSerializer).

(** [class WirelessLANSerializer(PrimaryModelSerializer)] *)
Definition WirelessLANSerializer : Serializer :=
  Class WirelessLAN
    [ "id"; "url"; "display"; "ssid"; "description"; "vlan" ]
    (("url", HyperlinkedIdentityField "wireless-api:wirelesslan-detail")
       :: ("vlan", Nested NestedVLANSerializer false true)
       :: PrimaryModelSerializer).

(** [class WirelessLinkSerializer(PrimaryModelSerializer)].  A nested
    serializer constructed without arguments is required and not
    nullable.  [Meta.model] is [WirelessLAN], as the source has it. *)
Definition WirelessLinkSerializer : Serializer :=
  Class WirelessLAN
    [ "id"; "url"; "display"; "interface_a"; "interface_b"; "ssid";
      "description" ]
    (("url", HyperlinkedIdentityField "wireless-api:wirelesslink-detail")
       :: ("interface_a", Nested NestedInterfaceSerializer true false)
       :: ("interface_b", Nested NestedInterfaceSerializer true false)
       :: PrimaryModelSerializer).

(* ===================================================================== *)
(** * Read path: [Serializer.to_representation] *)
(* ===================================================================== *)

Section ReadPath.

Variable ctx : context.

(** The read path of a nested serializer, one nesting level down. *)
Variable nested : Serializer -> instance -> result representation.

(** [Field.get_attribute]: the attribute the field is bound to, or the
    whole object for a [source='*'] field.  A missing attribute reads as
    [None] when the field allows null, skips the field ([None] here) when
    it is not required, and is an error otherwise. *)
Definition get_attribute (f : Field) (field_name : string) (obj : instance)
  : result (option pyval) :=
  if source_star f then ret (Some (VObj obj))
  else match getattr obj field_name with
       | Some v => ret (Some v)
       | None =>
           if allow_null f then ret (Some VNone)
           else if negb (required f) then ret None
           else raise (AttributeError field_name)
       end.

(** [HyperlinkedIdentityField.to_representation]: the request must be in
    the context; an unsaved object has no URL; otherwise the view name is
    reversed with the primary key and made absolute. *)
Definition get_url (view_name : string) (obj : instance) : result json :=
  match request ctx with
  | None => raise (AssertionError "request")
  | Some base =>
      match pk_of obj with
      | None => ret JNull
      | Some pk =>
          match reverse ctx view_name pk with
          | None => raise (ImproperlyConfigured view_name)
          | Some path => ret (JStr (base ++ path))
          end
      end
  end.

(** [field.to_representation(attribute)] for a non-[None] attribute. *)
Definition field_to_representation (f : Field) (attribute : pyval)
  : result json :=
  match f, attribute with
  | IntegerField, VInt n => ret (JInt n)
  | CharField _ _, v => ret (JStr (py_str v))
  | HyperlinkedIdentityField view_name, VObj o => get_url view_name o
  | SerializerMethodField, VObj o => ret (JStr (str_of o))
  | Nested cls _ _, VObj o => r <- nested cls o ;; ret (JObj r)
  | _, _ => raise (TypeError "to_representation")
  end.

(** The loop of [Serializer.to_representation] over the bound fields. *)
Fixpoint represent_fields (fields : list (string * Field)) (obj : instance)
  : result representation :=
  match fields with
  | [] => ret []
  | (field_name, f) :: fields' =>
      attribute <- get_attribute f field_name obj ;;
      match attribute with
      | None => represent_fields fields' obj
      | Some VNone =>
          rest <- represent_fields fields' obj ;;
          ret ((field_name, JNull) :: rest)
      | Some v =>
          j <- field_to_representation f v ;;
          rest <- represent_fields fields' obj ;;
          ret ((field_name, j) :: rest)
      end
  end.

End ReadPath.

Fixpoint to_representation_at (level : nat) (ctx : context)
    (cls : Serializer) (obj : instance) : result representation :=
  match level with
  | O => raise RecursionError
  | S level' =>
      fields <- get_fields cls ;;
      represent_fields ctx (to_representation_at level' ctx) fields obj
  end.

(** [cls(obj, context=ctx).data] *)
Definition to_representation (ctx : context) (cls : Serializer)
    (obj : instance) : result representation :=
  to_representation_at (depth cls) ctx cls obj.

(* ===================================================================== *)
(** * Write path: [Serializer.to_internal_value] and [create] *)
(* ===================================================================== *)

(** What validating one field yields: a value for the validated data,
    nothing ([SkipField]), or an error code for the field. *)
Inductive outcome : Type :=
| Valid (v : pyval)
| Skip
| Invalid (code : string).

Section WritePath.

(** [partial=True] is how the framework validates a partial update. *)
Variable partial : bool.
Variable db : persistence.

(** [Field.validate_empty_values].  [data] is [None] when the input has
    no entry for the field.  [inl] settles the field, [inr] hands the
    value on to the field's own conversion. *)
Definition validate_empty_values (f : Field) (data : option json)
  : outcome + json :=
  match data with
  | None =>
      inl (if partial then Skip
           else if required f then Invalid "required"
           else Skip)
  | Some JNull => inl (if allow_null f then Valid VNone else Invalid "null")
  | Some j => inr j
  end.

(** [CharField.to_internal_value] followed by its validators: only
    strings and numbers are accepted, the text is stripped, and a null
    character is refused. *)
Definition char_to_internal_value (j : json) : outcome :=
  match j with
  | JStr s =>
      if has_null_char (strip s) then Invalid "null_characters_not_allowed"
      else Valid (VStr (strip s))
  | JInt n => Valid (VStr (str_int n))
  | _ => Invalid "invalid"
  end.

(** [CharField.run_validation]: a blank string is settled before
    anything else. *)
Definition char_run_validation (f : Field) (allow_blank : bool)
    (data : option json) : outcome :=
  match data with
  | Some (JStr s) =>
      if String.eqb (strip s) "" then
        if allow_blank then Valid (VStr "") else Invalid "blank"
      else char_to_internal_value (JStr s)
  | _ =>
      match validate_empty_values f data with
      | inl o => o
      | inr j => char_to_internal_value j
      end
  end.

(** Modelled from the spec: the write side of a nested serializer
    ([netbox.api.WritableNestedSerializer], not part of the source).
    Section 4.1: "relational fields must reference entities that exist,
    resolved through the external persistence collaborator"; section 6:
    "entity lookup by identifier"; section 7: a reference to a
    nonexistent entity is a field-level validation error.  The input is a
    nested reference, whose identifier is looked up. *)
Definition nested_to_internal_value (cls : Serializer) (j : json)
  : outcome :=
  match j with
  | JObj members =>
      match assoc "id" members with
      | Some (JInt n) =>
          match objects db (models.name (Meta_model cls)) n with
          | Some o => Valid (VObj o)
          | None => Invalid "does_not_exist"
          end
      | _ => Invalid "invalid"
      end
  | _ => Invalid "invalid"
  end.

(** [field.run_validation(primitive_value)] for a writable field. *)
Definition run_validation (f : Field) (data : option json) : outcome :=
  match f with
  | CharField _ allow_blank => char_run_validation f allow_blank data
  | Nested cls _ _ =>
      match validate_empty_values f data with
      | inl o => o
      | inr j => nested_to_internal_value cls j
      end
  | _ => Skip
  end.

(** The loop of [Serializer.to_internal_value] over the writable fields:
    each field reads its own entry of the input; values and errors are
    collected in field order. *)
Fixpoint validate_fields (fields : list (string * Field))
    (data : list (string * json))
  : list (string * pyval) * list (string * string) :=
  match fields with
  | [] => ([], [])
  | (field_name, f) :: fields' =>
      let '(values, errors) := validate_fields fields' data in
      if read_only f then (values, errors)
      else match run_validation f (assoc field_name data) with
           | Valid v => ((field_name, v) :: values, errors)
           | Skip => (values, errors)
           | Invalid code => (values, (field_name, code) :: errors)
           end
  end.

Definition to_internal_value (cls : Serializer) (data : list (string * json))
  : result (list (string * pyval)) :=
  fields <- get_fields cls ;;
  let '(values, errors) := validate_fields fields data in
  match errors with
  | [] => ret values
  | _ :: _ => raise (ValidationError errors)
  end.

(** The model constructor called with the validated data as keyword
    arguments: every keyword must name a field of the model; a field
    without keyword takes its default. *)
Fixpoint unexpected_keyword (model : models.Model)
    (kwargs : list (string * pyval)) : option string :=
  match kwargs with
  | [] => None
  | (k, _) :: kwargs' =>
      match assoc k (models.fields model) with
      | None => Some k
      | Some _ => unexpected_keyword model kwargs'
      end
  end.

Fixpoint init_fields (fields : list (string * models.Field))
    (kwargs : list (string * pyval)) : result (list (string * pyval)) :=
  match fields with
  | [] => ret []
  | (n, models.AutoField) :: fields' => init_fields fields' kwargs
  | (n, f) :: fields' =>
      v <- match assoc n kwargs with
           | Some v => ret v
           | None =>
               match models.get_default f with
               | Some v => ret v
               | None => raise (IntegrityError n)
               end
           end ;;
      rest <- init_fields fields' kwargs ;;
      ret ((n, v) :: rest)
  end.

(** [ModelSerializer.create]: [Meta.model.objects.create] on the
    validated data.  Model-level validation and constraints of the
    persistence schema are the persistence layer's and not part of this
    development. *)
Definition create (cls : Serializer) (validated : list (string * pyval))
  : result instance :=
  let model := Meta_model cls in
  match unexpected_keyword model validated with
  | Some k => raise (TypeError k)
  | None =>
      attrs <- init_fields (models.fields model) validated ;;
      ret (Instance (models.name model)
             (Some (next_pk db (models.name model)))
             (label_rule db (models.name model) attrs) attrs)
  end.

End WritePath.

(** [serializer.is_valid(raise_exception=True); serializer.save()] on a
    serializer built from request data alone, as for a creation: the
    serializer is not partial and [save] calls [create]. *)
Definition save (db : persistence) (cls : Serializer)
    (data : list (string * json)) : result instance :=
  validated <- to_internal_value false db cls data ;;
  create db cls validated.

(* ===================================================================== *)
(** * Persisted entities and usable contexts *)
(* ===================================================================== *)

(** Modelled from the spec: [wireless.models.WirelessLink], imported by the
    source through [from wireless.models import *] and not part of it.
    Section 3: a system-assigned identifier, two required references to
    interface entities, an optional network name and an optional
    description. *)
Definition WirelessLink : models.Model :=
  {| models.name := "WirelessLink";
     models.fields :=
       [ ("id", models.AutoField);
         ("interface_a", models.ForeignKey "Interface" false);
         ("interface_b", models.ForeignKey "Interface" false);
         ("ssid", models.CharField true);
         ("description", models.CharField true) ] |}.

Definition is_some {A} (o : option A) : bool :=
  match o with Some _ => true | None => false end.

(** A stored value fits its model field: an assigned identifier, a string,
    a saved row of the target model, or [None] for a nullable relation. *)
Definition fits (f : models.Field) (v : pyval) : bool :=
  match f, v with
  | models.AutoField, VInt _ => true
  | models.CharField _, VStr _ => true
  | models.ForeignKey to _, VObj o =>
      String.eqb (model_of o) to && is_some (pk_of o)
  | models.ForeignKey _ true, VNone => true
  | _, _ => false
  end.

(** [obj] is a saved row of [model]: it is an instance of that class and
    every field of the model holds a fitting value. *)
Definition persisted (model : models.Model) (obj : instance) : bool :=
  String.eqb (model_of obj) (models.name model)
  && forallb (fun nf => match getattr obj (fst nf) with
                        | Some v => fits (snd nf) v
                        | None => false
                        end) (models.fields model).

(** The context holds a request. *)
Definition has_request (ctx : context) : Prop :=
  exists base, request ctx = Some base.

(** The routing layer knows the view. *)
Definition resolves (ctx : context) (view_name : string) : Prop :=
  forall pk, exists path, reverse ctx view_name pk = Some path.

(** JSON values that are not objects. *)
Definition scalar (j : json) : bool :=
  match j with
  | JObj _ => false
  | _ => true
  end.

(** Two objects in the same state, as far as Python code can tell through
    the primary key, [str] and attribute access. *)
Definition same_state (o1 o2 : instance) : Prop :=
  pk_of o1 = pk_of o2 /\ str_of o1 = str_of o2 /\
  forall name, getattr o1 name = getattr o2 name.

(** The view names of the two serializers and of their nested references. *)
Definition view_names : list string :=
  [ "wireless-api:wirelesslan-detail"; "wireless-api:wirelesslink-detail";
    "ipam-api:vlan-detail"; "dcim-api:interface-detail" ].

(** A context the read path can work with: it holds the request, and the
    routing layer knows the views. *)
Definition usable (ctx : context) : Prop :=
  has_request ctx /\ forall view, In view view_names -> resolves ctx view.

(** A nested reference: identifier, self-link and label. *)
Definition reference (base path : string) (k : Z) (o : instance)
  : representation :=
  [ ("id", JInt k); ("url", JStr (base ++ path));
    ("display", JStr (str_of o)) ].

(** How the optional VLAN of [obj] is rendered in context [ctx]. *)
Definition vlan_rendering (ctx : context) (base : string) (obj : instance)
    (j : json) : Prop :=
  (getattr obj "vlan" = Some VNone /\ j = JNull) \/
  (exists v k path,
      getattr obj "vlan" = Some (VObj v) /\ pk_of v = Some k /\
      reverse ctx "ipam-api:vlan-detail" k = Some path /\
      j = JObj (reference base path k v)).

(** How a mandatory interface reference of [obj] is rendered. *)
Definition interface_rendering (ctx : context) (base : string)
    (obj : instance) (field_name : string) (j : json) : Prop :=
  exists i k path,
    getattr obj field_name = Some (VObj i) /\ pk_of i = Some k /\
    reverse ctx "dcim-api:interface-detail" k = Some path /\
    j = JObj (reference base path k i).

(** A nested serializer used as a field. *)
Definition nests (f : Field) : bool :=
  match f with
  | Nested _ _ _ => true
  | _ => false
  end.

(** Every value of the mapping is a scalar. *)
Definition flat (r : representation) : Prop :=
  forall k v, In (k, v) r -> scalar v = true.

(** The text is what the write path would store for it: stripping leaves
    it unchanged and it holds no null character. *)
Definition normalized (s : string) : bool :=
  String.eqb (strip s) s && negb (has_null_char s).

(** Modelled from the spec: the detail route of the wireless-lans
    collection, registered in [wireless/api/urls.py], which is not part of
    the source.  Section 8 gives the self-link of network 5 as
    [.../wireless/wireless-lans/5/], the leading dots standing for the base
    of the request. *)
Definition wirelesslan_detail (pk : Z) : string :=
  "/wireless/wireless-lans/" ++ str_int pk ++ "/".

(* ===================================================================== *)
(** * Sample data *)
(* ===================================================================== *)

Module sample.

(** A routing layer with the wireless-lans route of the spec; the other
    views get a route of the same form. *)
Definition router (view_name : string) (pk : Z) : option string :=
  if String.eqb view_name "wireless-api:wirelesslan-detail"
  then Some (wirelesslan_detail pk)
  else Some ("/" ++ view_name ++ "/" ++ str_int pk ++ "/").

Definition ctx : context :=
  {| request := Some "https://netbox.example/api"; reverse := router |}.

Definition vlan : instance :=
  Instance "VLAN" (Some 7%Z) "guest (100)" [ ("vid", VInt 100) ].

Definition interface_x : instance :=
  Instance "Interface" (Some 11%Z) "wlan0" [ ("name", VStr "wlan0") ].

Definition interface_y : instance :=
  Instance "Interface" (Some 12%Z) "wlan1" [ ("name", VStr "wlan1") ].

(** The network of the example of section 8. *)
Definition guest_net : instance :=
  Instance "WirelessLAN" (Some 5%Z) "guest-net"
    [ ("ssid", VStr "guest-net"); ("description", VStr "");
      ("vlan", VNone); ("created", VStr "2021-10-13") ].

Definition office_net : instance :=
  Instance "WirelessLAN" (Some 6%Z) "office"
    [ ("ssid", VStr "office"); ("description", VStr "second floor");
      ("vlan", VObj vlan); ("created", VStr "2021-10-13") ].

(** The same network read again, into an object of a proxy class that
    holds the attributes in another order. *)
Definition office_net' : instance :=
  Instance "WirelessLANProxy" (Some 6%Z) "office"
    [ ("created", VStr "2021-10-13"); ("vlan", VObj vlan);
      ("description", VStr "second floor"); ("ssid", VStr "office") ].

(** A saved network whose name starts with a space. *)
Definition padded_net : instance :=
  Instance "WirelessLAN" (Some 8%Z) " guest-net"
    [ ("ssid", VStr " guest-net"); ("description", VStr "");
      ("vlan", VNone) ].

(** The link of the example of section 8. *)
Definition ptp_link : instance :=
  Instance "WirelessLink" (Some 2%Z) "ptp-link"
    [ ("interface_a", VObj interface_x); ("interface_b", VObj interface_y);
      ("ssid", VStr "ptp-link"); ("description", VStr "");
      ("status", VStr "connected") ].

Definition db : persistence :=
  {| objects := fun model k =>
       if String.eqb model "VLAN" && Z.eqb k 7 then Some vlan
       else if String.eqb model "Interface" && Z.eqb k 11
            then Some interface_x
       else if String.eqb model "Interface" && Z.eqb k 12
            then Some interface_y
       else None;
     next_pk := fun _ => 9%Z;
     label_rule := fun _ attrs =>
       match assoc "ssid" attrs with
       | Some v => py_str v
       | None => ""
       end |}.

End sample.

(* ===================================================================== *)
(** * Further notions *)
(* ===================================================================== *)

(** The read loop emits an entry for the field on this object: the field
    is handed the whole object, or the object has the attribute, or the
    field reads a missing attribute as [None], or it is required (and then
    a missing attribute is an error, not an omission). *)
Definition kept (obj : instance) (nf : string * Field) : bool :=
  source_star (snd nf) || is_some (getattr obj (fst nf))
  || allow_null (snd nf) || required (snd nf).

(** Lookup by identifier returns rows of the model asked for, under the
    identifier asked for. *)
Definition consistent (db : persistence) : Prop :=
  forall model k o,
    objects db model k = Some o -> model_of o = model /\ pk_of o = Some k.

(** No character of the text is white space or the null character. *)
Fixpoint plain (s : string) : bool :=
  match s with
  | EmptyString => true
  | String c s' =>
      negb (isspace c) && negb (nat_of_ascii c =? 0)%nat && plain s'
  end.

Module edge.

(** A network object that has not been saved. *)
Definition draft_net : instance :=
  Instance "WirelessLAN" None "draft"
    [ ("ssid", VStr "draft"); ("description", VStr ""); ("vlan", VNone) ].

(** An object with a name and nothing else. *)
Definition bare : instance :=
  Instance "Other" (Some 1%Z) "bare" [ ("ssid", VStr "bare") ].


(** The sample link with another status and further bookkeeping. *)
Definition quiet_link : instance :=
  Instance "WirelessLink" (Some 2%Z) "ptp-link"
    [ ("interface_a", VObj sample.interface_x);
      ("interface_b", VObj sample.interface_y);
      ("ssid", VStr "ptp-link"); ("description", VStr "");
      ("status", VStr "planned"); ("auth_psk", VStr "secret") ].

(** The sample context reached under another host name. *)
Definition other_host : context :=
  {| request := Some "https://netbox.internal/api";
     reverse := sample.router |}.

(** A context without request. *)
Definition no_request : context :=
  {| request := None; reverse := sample.router |}.

End edge.

(* ===================================================================== *)
(** * Auxiliary facts *)
(* ===================================================================== *)

Lemma bind_inr {A B} (m : result A) (k : A -> result B) (b : B) :
  bind m k = inr b -> exists a, m = inr a /\ k a = inr b.
Proof.
  destruct m as [e | a]; simpl; intros H; [discriminate | eauto].
Qed.

Lemma assoc_In {A} (k : string) (l : list (string * A)) (v : A) :
  assoc k l = Some v -> In (k, v) l.
Proof.
  induction l as [| [k' v'] l IH]; simpl; [discriminate |].
  destruct (String.eqb_spec k k') as [-> | _].
  - intros [= ->]. now left.
  - intros H. right. now apply IH.
Qed.

(** The bound fields carry exactly the names of [Meta.fields], in order. *)
Lemma get_fields_from_keys model declared names fields :
  get_fields_from model declared names = inr fields -> keys fields = names.
Proof.
  revert fields. induction names as [| n names IH]; simpl; intros fields H.
  - injection H as <-. reflexivity.
  - apply bind_inr in H as (f & _ & H).
    apply bind_inr in H as (rest & Hrest & H).
    injection H as <-. simpl. f_equal. now apply IH.
Qed.

Lemma get_fields_keys cls fields :
  get_fields cls = inr fields -> keys fields = Meta_fields cls.
Proof. apply get_fields_from_keys. Qed.

Lemma getattr_id obj : getattr obj "id" = Some (pk_value obj).
Proof. reflexivity. Qed.

Lemma persisted_getattr model obj n f :
  persisted model obj = true -> In (n, f) (models.fields model) ->
  exists v, getattr obj n = Some v /\ fits f v = true.
Proof.
  unfold persisted. intros H Hin.
  apply andb_prop in H as [_ H].
  rewrite forallb_forall in H. specialize (H _ Hin). simpl in H.
  destruct (getattr obj n) as [v |]; [eauto | discriminate].
Qed.

Lemma persisted_pk model obj :
  persisted model obj = true ->
  In ("id", models.AutoField) (models.fields model) ->
  exists n, pk_of obj = Some n.
Proof.
  intros H Hin. destruct (persisted_getattr _ _ _ _ H Hin) as (v & Hv & Hfit).
  rewrite getattr_id in Hv. injection Hv as <-.
  unfold pk_value in Hfit. destruct (pk_of obj); [eauto | discriminate].
Qed.

Lemma persisted_char model obj n blank :
  persisted model obj = true ->
  In (n, models.CharField blank) (models.fields model) ->
  exists s, getattr obj n = Some (VStr s).
Proof.
  intros H Hin. destruct (persisted_getattr _ _ _ _ H Hin) as (v & Hv & Hfit).
  destruct v; try discriminate. eauto.
Qed.

Lemma persisted_required_key model obj n to :
  persisted model obj = true ->
  In (n, models.ForeignKey to false) (models.fields model) ->
  exists o k, getattr obj n = Some (VObj o) /\ pk_of o = Some k.
Proof.
  intros H Hin. destruct (persisted_getattr _ _ _ _ H Hin) as (v & Hv & Hfit).
  destruct v as [| | | o]; try discriminate. simpl in Hfit.
  apply andb_prop in Hfit as [_ Hpk].
  destruct (pk_of o) as [k |] eqn:E; [eauto | discriminate].
Qed.

Lemma persisted_nullable_key model obj n to :
  persisted model obj = true ->
  In (n, models.ForeignKey to true) (models.fields model) ->
  getattr obj n = Some VNone \/
  exists o k, getattr obj n = Some (VObj o) /\ pk_of o = Some k.
Proof.
  intros H Hin. destruct (persisted_getattr _ _ _ _ H Hin) as (v & Hv & Hfit).
  destruct v as [| | | o]; try discriminate; [now left |]. simpl in Hfit.
  apply andb_prop in Hfit as [_ Hpk].
  destruct (pk_of o) as [k |] eqn:E; [right; eauto | discriminate].
Qed.

(** ** The representations of saved rows, written out *)

#[local] Arguments getattr : simpl never.
#[local] Arguments String.append : simpl never.

(** Runs the read path on an object whose attributes are known from
    equations in the context. *)
Ltac read_path :=
  unfold to_representation, to_representation_at, get_fields, get_fields_from,
    build_field;
  repeat (progress (simpl; unfold get_attribute, pk_value, get_url; simpl;
                    repeat match goal with
                           | H : _ = Some _ |- _ => rewrite H
                           end)).

Lemma lan_representation_null ctx base obj n s d path :
  request ctx = Some base -> pk_of obj = Some n ->
  getattr obj "ssid" = Some (VStr s) ->
  getattr obj "description" = Some (VStr d) ->
  getattr obj "vlan" = Some VNone ->
  reverse ctx "wireless-api:wirelesslan-detail" n = Some path ->
  to_representation ctx WirelessLANSerializer obj
  = inr [ ("id", JInt n); ("url", JStr (base ++ path));
          ("display", JStr (str_of obj)); ("ssid", JStr s);
          ("description", JStr d); ("vlan", JNull) ].
Proof.
  intros Hreq Hpk Hs Hd Hv Hrev. read_path. reflexivity.
Qed.

Lemma lan_representation_vlan ctx base obj n s d path v k vpath :
  request ctx = Some base -> pk_of obj = Some n ->
  getattr obj "ssid" = Some (VStr s) ->
  getattr obj "description" = Some (VStr d) ->
  getattr obj "vlan" = Some (VObj v) -> pk_of v = Some k ->
  reverse ctx "wireless-api:wirelesslan-detail" n = Some path ->
  reverse ctx "ipam-api:vlan-detail" k = Some vpath ->
  to_representation ctx WirelessLANSerializer obj
  = inr [ ("id", JInt n); ("url", JStr (base ++ path));
          ("display", JStr (str_of obj)); ("ssid", JStr s);
          ("description", JStr d);
          ("vlan", JObj (reference base vpath k v)) ].
Proof.
  intros Hreq Hpk Hs Hd Hv Hvpk Hrev Hvrev. read_path. reflexivity.
Qed.

Lemma link_representation ctx base obj n s d path a ka apath b kb bpath :
  request ctx = Some base -> pk_of obj = Some n ->
  getattr obj "interface_a" = Some (VObj a) -> pk_of a = Some ka ->
  getattr obj "interface_b" = Some (VObj b) -> pk_of b = Some kb ->
  getattr obj "ssid" = Some (VStr s) ->
  getattr obj "description" = Some (VStr d) ->
  reverse ctx "wireless-api:wirelesslink-detail" n = Some path ->
  reverse ctx "dcim-api:interface-detail" ka = Some apath ->
  reverse ctx "dcim-api:interface-detail" kb = Some bpath ->
  to_representation ctx WirelessLinkSerializer obj
  = inr [ ("id", JInt n); ("url", JStr (base ++ path));
          ("display", JStr (str_of obj));
          ("interface_a", JObj (reference base apath ka a));
          ("interface_b", JObj (reference base bpath kb b));
          ("ssid", JStr s); ("description", JStr d) ].
Proof.
  intros Hreq Hpk Ha Hka Hb Hkb Hs Hd Hrev Harev Hbrev. read_path.
  reflexivity.
Qed.

(** Every saved network has a representation, of this form. *)
Lemma lan_represented ctx obj :
  usable ctx -> persisted WirelessLAN obj = true ->
  exists base n s d path vj,
    request ctx = Some base /\ pk_of obj = Some n /\
    getattr obj "ssid" = Some (VStr s) /\
    getattr obj "description" = Some (VStr d) /\
    reverse ctx "wireless-api:wirelesslan-detail" n = Some path /\
    vlan_rendering ctx base obj vj /\
    to_representation ctx WirelessLANSerializer obj
    = inr [ ("id", JInt n); ("url", JStr (base ++ path));
            ("display", JStr (str_of obj)); ("ssid", JStr s);
            ("description", JStr d); ("vlan", vj) ].
Proof.
  intros [[base Hreq] Hres] Hp.
  destruct (persisted_pk _ _ Hp) as [n Hpk]; [simpl; tauto |].
  destruct (persisted_char _ _ "ssid" false Hp) as [s Hs]; [simpl; tauto |].
  destruct (persisted_char _ _ "description" true Hp) as [d Hd];
    [simpl; tauto |].
  destruct (Hres "wireless-api:wirelesslan-detail") with (pk := n)
    as [path Hrev]; [simpl; tauto |].
  destruct (persisted_nullable_key _ _ "vlan" "VLAN" Hp)
    as [Hv | (v & k & Hv & Hk)]; [simpl; tauto | |].
  - exists base, n, s, d, path, JNull.
    repeat split; try assumption; [now left |].
    now apply lan_representation_null.
  - destruct (Hres "ipam-api:vlan-detail") with (pk := k) as [vpath Hvrev];
      [simpl; tauto |].
    exists base, n, s, d, path, (JObj (reference base vpath k v)).
    repeat split; try assumption.
    + right. exists v, k, vpath. auto.
    + now apply lan_representation_vlan with (v := v) (k := k).
Qed.

(** Every saved link has a representation, of this form. *)
Lemma link_represented ctx obj :
  usable ctx -> persisted WirelessLink obj = true ->
  exists base n s d path ja jb,
    request ctx = Some base /\ pk_of obj = Some n /\
    getattr obj "ssid" = Some (VStr s) /\
    getattr obj "description" = Some (VStr d) /\
    reverse ctx "wireless-api:wirelesslink-detail" n = Some path /\
    interface_rendering ctx base obj "interface_a" ja /\
    interface_rendering ctx base obj "interface_b" jb /\
    to_representation ctx WirelessLinkSerializer obj
    = inr [ ("id", JInt n); ("url", JStr (base ++ path));
            ("display", JStr (str_of obj));
            ("interface_a", ja); ("interface_b", jb);
            ("ssid", JStr s); ("description", JStr d) ].
Proof.
  intros [[base Hreq] Hres] Hp.
  destruct (persisted_pk _ _ Hp) as [n Hpk]; [simpl; tauto |].
  destruct (persisted_char _ _ "ssid" true Hp) as [s Hs]; [simpl; tauto |].
  destruct (persisted_char _ _ "description" true Hp) as [d Hd];
    [simpl; tauto |].
  destruct (Hres "wireless-api:wirelesslink-detail") with (pk := n)
    as [path Hrev]; [simpl; tauto |].
  destruct (persisted_required_key _ _ "interface_a" "Interface" Hp)
    as (a & ka & Ha & Hka); [simpl; tauto |].
  destruct (persisted_required_key _ _ "interface_b" "Interface" Hp)
    as (b & kb & Hb & Hkb); [simpl; tauto |].
  destruct (Hres "dcim-api:interface-detail") with (pk := ka)
    as [apath Harev]; [simpl; tauto |].
  destruct (Hres "dcim-api:interface-detail") with (pk := kb)
    as [bpath Hbrev]; [simpl; tauto |].
  exists base, n, s, d, path, (JObj (reference base apath ka a)),
    (JObj (reference base bpath kb b)).
  repeat split; try assumption.
  - exists a, ka, apath. auto.
  - exists b, kb, bpath. auto.
  - now apply link_representation with (a := a) (ka := ka) (b := b) (kb := kb).
Qed.

(** ** The sample data is well formed *)

Lemma sample_ctx_usable : usable sample.ctx.
Proof.
  split.
  - now exists "https://netbox.example/api".
  - intros view _ pk. unfold sample.ctx, sample.router. simpl.
    destruct (String.eqb view "wireless-api:wirelesslan-detail"); eauto.
Qed.

(* ===================================================================== *)
(** * Field allow-lists *)
(* ===================================================================== *)

(** C1.  In a usable context every saved network and every saved link has
    a representation, and its keys are exactly the names of [Meta.fields]
    of its serializer, in that order: id, url, display, ssid, description,
    vlan for a network; id, url, display, interface_a, interface_b, ssid,
    description for a link.  No other attribute of the object is a key. *)
Theorem representation_is_allow_list ctx obj :
  usable ctx ->
  (persisted WirelessLAN obj = true ->
   exists rep,
     to_representation ctx WirelessLANSerializer obj = inr rep /\
     keys rep = [ "id"; "url"; "display"; "ssid"; "description"; "vlan" ])
  /\
  (persisted WirelessLink obj = true ->
   exists rep,
     to_representation ctx WirelessLinkSerializer obj = inr rep /\
     keys rep = [ "id"; "url"; "display"; "interface_a"; "interface_b";
                  "ssid"; "description" ]).
Proof.
  intros Hctx. split; intros Hp.
  - destruct (lan_represented ctx obj Hctx Hp)
      as (base & n & s & d & path & vj & _ & _ & _ & _ & _ & _ & Hrep).
    eexists. split; [exact Hrep | reflexivity].
  - destruct (link_represented ctx obj Hctx Hp)
      as (base & n & s & d & path & ja & jb & _ & _ & _ & _ & _ & _ & _ & Hrep).
    eexists. split; [exact Hrep | reflexivity].
Qed.

Lemma representation_is_allow_list_witness :
  usable sample.ctx /\
  persisted WirelessLAN sample.office_net = true /\
  persisted WirelessLink sample.ptp_link = true /\
  (exists rep,
     to_representation sample.ctx WirelessLANSerializer sample.office_net
     = inr rep /\
     keys rep = [ "id"; "url"; "display"; "ssid"; "description"; "vlan" ]) /\
  (exists rep,
     to_representation sample.ctx WirelessLinkSerializer sample.ptp_link
     = inr rep /\
     keys rep = [ "id"; "url"; "display"; "interface_a"; "interface_b";
                  "ssid"; "description" ]).
Proof.
  split; [exact sample_ctx_usable |].
  split; [reflexivity |]. split; [reflexivity |]. split.
  - apply (proj1 (representation_is_allow_list sample.ctx sample.office_net
                    sample_ctx_usable)).
    reflexivity.
  - apply (proj2 (representation_is_allow_list sample.ctx sample.ptp_link
                    sample_ctx_usable)).
    reflexivity.
Defined.

(* ===================================================================== *)
(** * The backing model of the link serializer *)
(* ===================================================================== *)

(** C3.  The link serializer names [WirelessLAN] as its model, the same
    model as the network serializer, while its self-link field points at
    the wireless-link detail view.  Hence the fields it takes from the
    model, [ssid] and [description], are the fields built from the network
    model and coincide with those of the network serializer. *)
Theorem link_serializer_is_backed_by_network_model :
  Meta_model WirelessLinkSerializer = WirelessLAN /\
  Meta_model WirelessLinkSerializer = Meta_model WirelessLANSerializer /\
  Meta_model WirelessLinkSerializer <> WirelessLink /\
  assoc "url" (declared_fields WirelessLinkSerializer)
  = Some (HyperlinkedIdentityField "wireless-api:wirelesslink-detail") /\
  assoc "ssid" (declared_fields WirelessLinkSerializer) = None /\
  assoc "description" (declared_fields WirelessLinkSerializer) = None /\
  exists link_fields lan_fields,
    get_fields WirelessLinkSerializer = inr link_fields /\
    get_fields WirelessLANSerializer = inr lan_fields /\
    forall name, In name [ "ssid"; "description" ] ->
      inr (assoc name link_fields) =
        (f <- build_field WirelessLAN name ;; ret (Some f)) /\
      assoc name link_fields = assoc name lan_fields.
Proof.
  repeat split; try reflexivity; try discriminate.
  eexists. eexists. split; [reflexivity |]. split; [reflexivity |].
  intros name [<- | [<- | []]]; split; reflexivity.
Qed.

(* ===================================================================== *)
(** * Optional and mandatory relations *)
(* ===================================================================== *)

(** C4.  In a usable context every saved network has a representation
    with the key [vlan]; when the network has no VLAN the value under that
    key is an explicit null. *)
Theorem absent_vlan_is_explicit_null ctx obj :
  usable ctx -> persisted WirelessLAN obj = true ->
  exists rep,
    to_representation ctx WirelessLANSerializer obj = inr rep /\
    In "vlan" (keys rep) /\
    (getattr obj "vlan" = Some VNone -> assoc "vlan" rep = Some JNull).
Proof.
  intros Hctx Hp.
  destruct (lan_represented ctx obj Hctx Hp)
    as (base & n & s & d & path & vj & _ & _ & _ & _ & _ & Hv & Hrep).
  eexists. split; [exact Hrep |]. split; [simpl; tauto |].
  intros Hnone. simpl.
  destruct Hv as [[_ ->] | (v & k & p & Hv & _)]; [reflexivity | congruence].
Qed.

Lemma absent_vlan_is_explicit_null_witness :
  usable sample.ctx /\ persisted WirelessLAN sample.guest_net = true /\
  getattr sample.guest_net "vlan" = Some VNone /\
  exists rep,
    to_representation sample.ctx WirelessLANSerializer sample.guest_net
    = inr rep /\
    In "vlan" (keys rep) /\ assoc "vlan" rep = Some JNull.
Proof.
  split; [exact sample_ctx_usable |].
  split; [reflexivity |]. split; [reflexivity |].
  destruct (absent_vlan_is_explicit_null sample.ctx sample.guest_net
              sample_ctx_usable eq_refl) as (rep & Hrep & Hin & Hnull).
  exists rep. split; [exact Hrep |]. split; [exact Hin |].
  apply Hnull. reflexivity.
Defined.

(** ** Errors of the write path *)

(** An invalid writable field is reported. *)
Lemma validate_fields_reports partial db fields data n f code :
  In (n, f) fields -> read_only f = false ->
  run_validation partial db f (assoc n data) = Invalid code ->
  In (n, code) (snd (validate_fields partial db fields data)).
Proof.
  intros Hin Hro Hrun.
  induction fields as [| [n' f'] fields IH]; simpl; [contradiction |].
  destruct (validate_fields partial db fields data) as [values errors] eqn:E.
  simpl in IH. destruct Hin as [[= -> ->] | Hin].
  - rewrite Hro, Hrun. simpl. now left.
  - specialize (IH Hin).
    destruct (read_only f'); [exact IH |].
    destruct (run_validation partial db f' (assoc n' data));
      simpl; auto.
Qed.

Lemma to_internal_value_reports partial db cls fields data n f code :
  get_fields cls = inr fields -> In (n, f) fields -> read_only f = false ->
  run_validation partial db f (assoc n data) = Invalid code ->
  exists errors,
    to_internal_value partial db cls data = inl (ValidationError errors) /\
    In (n, code) errors.
Proof.
  intros Hf Hin Hro Hrun. unfold to_internal_value. rewrite Hf. simpl.
  pose proof (validate_fields_reports partial db fields data n f code
                Hin Hro Hrun) as H.
  destruct (validate_fields partial db fields data) as [values errors].
  simpl in H. destruct errors as [| e errors]; [contradiction |].
  eexists. split; [reflexivity | exact H].
Qed.

(* ===================================================================== *)
(** * Creating a network *)
(* ===================================================================== *)

(** C8.  Whatever the persistence layer holds, creating a network from
    the input [{"ssid": "new-net"}] succeeds and the created network has
    no VLAN, and creating one from the empty input fails validation with
    [ssid] reported as required. *)
Theorem create_network_examples db :
  (exists obj,
     save db WirelessLANSerializer [ ("ssid", JStr "new-net") ] = inr obj /\
     getattr obj "ssid" = Some (VStr "new-net") /\
     getattr obj "vlan" = Some VNone) /\
  save db WirelessLANSerializer []
  = inl (ValidationError [ ("ssid", "required") ]).
Proof.
  split; [| reflexivity].
  eexists. split; [reflexivity |]. split; reflexivity.
Qed.

(* ===================================================================== *)
(** * Input keys outside the field list *)
(* ===================================================================== *)

(** The validation loop reads the input only at the names of its fields. *)
Lemma validate_fields_agree partial db fields data1 data2 :
  (forall n, In n (keys fields) -> assoc n data1 = assoc n data2) ->
  validate_fields partial db fields data1
  = validate_fields partial db fields data2.
Proof.
  induction fields as [| [n f] fields IH]; simpl; intros H; [reflexivity |].
  rewrite IH by (intros m Hm; apply H; now right).
  rewrite (H n) by now left. reflexivity.
Qed.

(** C9 as stated fails: an input with a key that is no field of the
    network serializer is valid, and the key is dropped. *)
Lemma unknown_field_is_accepted :
  In "bogus" (keys [ ("ssid", JStr "new-net"); ("bogus", JInt 1) ]) /\
  ~ In "bogus" (Meta_fields WirelessLANSerializer) /\
  to_internal_value false sample.db WirelessLANSerializer
    [ ("ssid", JStr "new-net"); ("bogus", JInt 1) ]
  = inr [ ("ssid", VStr "new-net") ].
Proof.
  split; [simpl; tauto |]. split; [| reflexivity].
  simpl. intros H. repeat destruct H as [H | H]; try discriminate H.
  exact H.
Qed.

(** C9, as amended.  The write path reads the input only under the names
    of [Meta.fields]: two inputs that agree on those names get the same
    outcome, be it the validated data or the validation error.  Entries
    under other names are therefore ignored, not rejected. *)
Theorem unknown_fields_are_ignored partial db cls data1 data2 :
  (forall n, In n (Meta_fields cls) -> assoc n data1 = assoc n data2) ->
  to_internal_value partial db cls data1
  = to_internal_value partial db cls data2.
Proof.
  intros H. unfold to_internal_value.
  destruct (get_fields cls) as [e | fields] eqn:E; [reflexivity |]. simpl.
  rewrite (validate_fields_agree partial db fields data1 data2);
    [reflexivity |].
  intros n Hn. apply H. now rewrite <- (get_fields_keys cls fields E).
Qed.

Lemma unknown_fields_are_ignored_witness :
  to_internal_value false sample.db WirelessLANSerializer
    [ ("ssid", JStr "new-net"); ("bogus", JInt 1) ]
  = to_internal_value false sample.db WirelessLANSerializer
      [ ("ssid", JStr "new-net") ].
Proof.
  apply unknown_fields_are_ignored.
  intros n Hn. simpl in Hn.
  repeat destruct Hn as [<- | Hn]; try reflexivity. contradiction.
Defined.

(* ===================================================================== *)
(** * The read path is a function of the entity state *)
(* ===================================================================== *)

Lemma get_url_same_state ctx view o1 o2 :
  pk_of o1 = pk_of o2 -> get_url ctx view o1 = get_url ctx view o2.
Proof. intros H. unfold get_url. now rewrite H. Qed.

Lemma represent_fields_same_state ctx nested fields o1 o2 :
  same_state o1 o2 ->
  represent_fields ctx nested fields o1 = represent_fields ctx nested fields o2.
Proof.
  intros (Hpk & Hstr & Hattr).
  induction fields as [| [n f] fields IH]; simpl; [reflexivity |].
  rewrite IH. unfold get_attribute. rewrite Hattr.
  destruct (source_star f) eqn:Hstar.
  - destruct f; try discriminate Hstar; simpl.
    + now rewrite (get_url_same_state ctx view_name o1 o2 Hpk).
    + now rewrite Hstr.
  - reflexivity.
Qed.

(** C10.  For every serializer class and context, the representation is
    determined by the state of the entity: two reads of objects in the
    same state (same primary key, same label, same value for every
    attribute) give identical results, so reading the same entity twice
    gives the same representation. *)
Theorem to_representation_deterministic ctx cls o1 o2 :
  same_state o1 o2 ->
  to_representation ctx cls o1 = to_representation ctx cls o2.
Proof.
  intros H. unfold to_representation.
  destruct (depth cls) as [| level]; simpl; [reflexivity |].
  destruct (get_fields cls) as [e | fields]; simpl; [reflexivity |].
  now apply represent_fields_same_state.
Qed.

Lemma sample_same_state : same_state sample.office_net sample.office_net'.
Proof.
  split; [reflexivity |]. split; [reflexivity |].
  intros name. unfold getattr. simpl.
  destruct (String.eqb name "id" || String.eqb name "pk"); [reflexivity |].
  destruct (String.eqb_spec name "ssid") as [-> | Hs]; [reflexivity |].
  destruct (String.eqb_spec name "description") as [-> | Hd]; [reflexivity |].
  destruct (String.eqb_spec name "vlan") as [-> | Hv]; [reflexivity |].
  destruct (String.eqb_spec name "created") as [-> | Hc]; reflexivity.
Qed.

Lemma to_representation_deterministic_witness :
  same_state sample.office_net sample.office_net' /\
  to_representation sample.ctx WirelessLANSerializer sample.office_net
  = to_representation sample.ctx WirelessLANSerializer sample.office_net'.
Proof.
  split; [exact sample_same_state |].
  apply to_representation_deterministic. exact sample_same_state.
Defined.

(* ===================================================================== *)
(** * Self-links *)
(* ===================================================================== *)

(** The entry under [url] is what [get_url] gives for the view of the
    serializer. *)
Lemma url_entry ctx nested view fields obj rep :
  represent_fields ctx nested
    (("id", IntegerField) :: ("url", HyperlinkedIdentityField view) :: fields)
    obj = inr rep ->
  exists u, get_url ctx view obj = inr u /\ assoc "url" rep = Some u.
Proof.
  intros H. simpl in H. unfold get_attribute in H. simpl in H.
  destruct (pk_value obj); simpl in H; try discriminate H.
  - apply bind_inr in H as (rest & Hrest & Hrep). injection Hrep as <-.
    apply bind_inr in Hrest as (u & Hu & Hrest).
    apply bind_inr in Hrest as (rest' & _ & Hrest). injection Hrest as <-.
    exists u. split; [exact Hu | reflexivity].
  - apply bind_inr in H as (rest & Hrest & Hrep). injection Hrep as <-.
    apply bind_inr in Hrest as (u & Hu & Hrest).
    apply bind_inr in Hrest as (rest' & _ & Hrest). injection Hrest as <-.
    exists u. split; [exact Hu | reflexivity].
Qed.

Lemma url_of_serializer ctx cls view obj rep :
  In (cls, view)
     [ (WirelessLANSerializer, "wireless-api:wirelesslan-detail");
       (WirelessLinkSerializer, "wireless-api:wirelesslink-detail") ] ->
  to_representation ctx cls obj = inr rep ->
  exists u, get_url ctx view obj = inr u /\ assoc "url" rep = Some u.
Proof.
  intros Hin Hrep.
  destruct Hin as [Hin | [Hin | []]]; injection Hin as <- <-;
    unfold to_representation in Hrep; simpl depth in Hrep;
    unfold to_representation_at in Hrep; fold to_representation_at in Hrep;
    apply bind_inr in Hrep as (fields & Hf & Hrep);
    injection Hf as <-; eapply url_entry; exact Hrep.
Qed.

(** C5 as stated fails: the self-link is absolute, built on the base of
    the request, so the same network read in two request contexts gets two
    different urls. *)
Lemma url_depends_on_request :
  exists rep1 rep2,
    to_representation sample.ctx WirelessLANSerializer sample.guest_net
    = inr rep1 /\
    to_representation edge.other_host WirelessLANSerializer sample.guest_net
    = inr rep2 /\
    assoc "url" rep1 <> assoc "url" rep2.
Proof.
  do 2 eexists. split; [reflexivity |]. split; [reflexivity |]. discriminate.
Qed.

(** C5, as amended.  In a given request context the self-link of a
    representation is a function of the serializer and of the primary key
    of the entity: two entities with the same primary key get the same
    [url] from the same serializer, whatever their other attributes.  With
    the wireless-lans route of the spec, the network with primary key 5
    gets the base of the request followed by
    [/wireless/wireless-lans/5/]. *)
Theorem url_is_function_of_identifier :
  (forall ctx cls o1 o2 rep1 rep2,
      In cls [ WirelessLANSerializer; WirelessLinkSerializer ] ->
      pk_of o1 = pk_of o2 ->
      to_representation ctx cls o1 = inr rep1 ->
      to_representation ctx cls o2 = inr rep2 ->
      In "url" (keys rep1) /\ assoc "url" rep1 = assoc "url" rep2)
  /\
  (forall ctx base obj rep,
      request ctx = Some base ->
      reverse ctx "wireless-api:wirelesslan-detail" 5
      = Some (wirelesslan_detail 5) ->
      pk_of obj = Some 5%Z ->
      to_representation ctx WirelessLANSerializer obj = inr rep ->
      assoc "url" rep = Some (JStr (base ++ "/wireless/wireless-lans/5/"))).
Proof.
  split.
  - intros ctx cls o1 o2 rep1 rep2 Hcls Hpk H1 H2.
    assert (exists view,
               In (cls, view)
                  [ (WirelessLANSerializer, "wireless-api:wirelesslan-detail");
                    (WirelessLinkSerializer,
                     "wireless-api:wirelesslink-detail") ]) as [view Hview].
    { destruct Hcls as [<- | [<- | []]]; eexists; simpl; eauto. }
    destruct (url_of_serializer _ _ _ _ _ Hview H1) as (u1 & Hu1 & Ha1).
    destruct (url_of_serializer _ _ _ _ _ Hview H2) as (u2 & Hu2 & Ha2).
    rewrite (get_url_same_state ctx view o1 o2 Hpk) in Hu1.
    split.
    + apply assoc_In in Ha1. unfold keys.
      change "url" with (fst ("url", u1)). now apply in_map.
    + congruence.
  - intros ctx base obj rep Hreq Hrev Hpk H.
    destruct (url_of_serializer ctx WirelessLANSerializer
                "wireless-api:wirelesslan-detail" obj rep) as (u & Hu & Ha);
      [simpl; tauto | exact H |].
    unfold get_url in Hu. rewrite Hreq, Hpk, Hrev in Hu.
    injection Hu as <-. exact Ha.
Qed.

Lemma url_is_function_of_identifier_witness :
  pk_of sample.guest_net = Some 5%Z /\
  request sample.ctx = Some "https://netbox.example/api" /\
  reverse sample.ctx "wireless-api:wirelesslan-detail" 5
  = Some (wirelesslan_detail 5) /\
  (exists rep,
      to_representation sample.ctx WirelessLANSerializer sample.guest_net
      = inr rep /\
      assoc "url" rep
      = Some (JStr "https://netbox.example/api/wireless/wireless-lans/5/")) /\
  (exists rep1 rep2,
      to_representation sample.ctx WirelessLANSerializer sample.office_net
      = inr rep1 /\
      to_representation sample.ctx WirelessLANSerializer sample.office_net'
      = inr rep2 /\
      In "url" (keys rep1) /\ assoc "url" rep1 = assoc "url" rep2).
Proof.
  split; [reflexivity |]. split; [reflexivity |]. split; [reflexivity |].
  split.
  - eexists. split; [reflexivity |].
    apply (proj2 url_is_function_of_identifier sample.ctx
             "https://netbox.example/api" sample.guest_net);
      reflexivity.
  - do 2 eexists. split; [reflexivity |]. split; [reflexivity |].
    apply (proj1 url_is_function_of_identifier sample.ctx
             WirelessLANSerializer sample.office_net sample.office_net');
      [simpl; tauto | reflexivity | reflexivity | reflexivity].
Defined.

(* ===================================================================== *)
(** * Expansion depth *)
(* ===================================================================== *)

(** Where an entry of a representation comes from: a field of that name,
    which met [None] or rendered some attribute. *)
Lemma represent_fields_entry ctx nested fields obj rep k j :
  represent_fields ctx nested fields obj = inr rep -> In (k, j) rep ->
  exists f, In (k, f) fields /\
            (j = JNull \/
             exists v, field_to_representation ctx nested f v = inr j).
Proof.
  revert rep. induction fields as [| [n f] fields IH]; simpl; intros rep H Hin.
  - injection H as <-. contradiction.
  - apply bind_inr in H as (a & _ & H).
    destruct a as [v |].
    + assert (Hcons : exists j0 rest,
                 represent_fields ctx nested fields obj = inr rest /\
                 rep = (n, j0) :: rest /\
                 (j0 = JNull \/
                  field_to_representation ctx nested f v = inr j0)).
      { destruct v.
        1: apply bind_inr in H as (rest & Hrest & H); injection H as <-;
           exists JNull, rest; auto.
        all: apply bind_inr in H as (j0 & Hj0 & H);
             apply bind_inr in H as (rest & Hrest & H); injection H as <-;
             exists j0, rest; auto. }
      destruct Hcons as (j0 & rest & Hrest & -> & Hj0).
      destruct Hin as [[= -> ->] | Hin].
      * exists f. split; [now left |].
        destruct Hj0 as [-> | Hj0]; [now left | right; eauto].
      * destruct (IH rest Hrest Hin) as (f' & Hf' & Hj).
        exists f'. split; [now right | exact Hj].
    + destruct (IH rep H Hin) as (f' & Hf' & Hj).
      exists f'. split; [now right | exact Hj].
Qed.

(** A field that is no nested serializer renders a scalar. *)
Lemma field_scalar ctx nested f v j :
  nests f = false -> field_to_representation ctx nested f v = inr j ->
  scalar j = true.
Proof.
  intros Hf H. destruct f; try discriminate Hf; simpl in H.
  - destruct v; try discriminate H. now injection H as <-.
  - now injection H as <-.
  - destruct v; try discriminate H. unfold get_url in H.
    destruct (request ctx); [| discriminate H].
    destruct (pk_of o); [| now injection H as <-].
    destruct (reverse ctx view_name z); [| discriminate H].
    now injection H as <-.
  - destruct v; try discriminate H. now injection H as <-.
Qed.

(** A class without nested serializers among its fields has a flat
    representation. *)
Lemma represent_fields_flat ctx nested fields obj rep :
  (forall n f, In (n, f) fields -> nests f = false) ->
  represent_fields ctx nested fields obj = inr rep -> flat rep.
Proof.
  intros Hfields H k j Hin.
  destruct (represent_fields_entry _ _ _ _ _ _ _ H Hin) as (f & Hf & Hj).
  destruct Hj as [-> | [v Hv]]; [reflexivity |].
  eapply field_scalar; [exact (Hfields k f Hf) | exact Hv].
Qed.

(** The representation a nested reference serializer gives is flat. *)
Lemma nested_reference_flat ctx level cls obj rep :
  In cls [ NestedVLANSerializer; NestedInterfaceSerializer ] ->
  to_representation_at level ctx cls obj = inr rep -> flat rep.
Proof.
  intros Hcls H. destruct level as [| level]; [discriminate H |].
  simpl in H. apply bind_inr in H as (fields & Hf & H).
  eapply represent_fields_flat; [| exact H].
  intros n f Hin.
  destruct Hcls as [<- | [<- | []]]; injection Hf as <-;
    simpl in Hin; repeat destruct Hin as [[= <- <-] | Hin];
    try reflexivity; contradiction.
Qed.

(** C7.  In every representation either serializer produces, for any
    object and context, each value is a scalar or an object all of whose
    members are scalars: the nested reference standing for a VLAN or an
    interface holds no nested reference of its own. *)
Theorem nested_references_are_flat ctx cls obj rep :
  In cls [ WirelessLANSerializer; WirelessLinkSerializer ] ->
  to_representation ctx cls obj = inr rep ->
  forall name j, In (name, j) rep ->
    scalar j = true \/ exists members, j = JObj members /\ flat members.
Proof.
  intros Hcls H name j Hin.
  unfold to_representation in H.
  assert (Hd : depth cls = 2%nat) by (destruct Hcls as [<- | [<- | []]];
                                      reflexivity).
  rewrite Hd in H. simpl in H.
  apply bind_inr in H as (fields & Hf & H).
  destruct (represent_fields_entry _ _ _ _ _ _ _ H Hin) as (f & Hfin & Hj).
  destruct Hj as [-> | [v Hv]]; [now left |].
  destruct (nests f) eqn:Hn.
  - right. destruct f; try discriminate Hn. simpl in Hv.
    destruct v; try discriminate Hv.
    apply bind_inr in Hv as (r & Hr & Hv). injection Hv as <-.
    exists r. split; [reflexivity |].
    apply (nested_reference_flat ctx 1 cls0 o r); [| exact Hr].
    destruct Hcls as [<- | [<- | []]]; injection Hf as <-;
      simpl in Hfin; repeat destruct Hfin as [Hfin | Hfin];
      try discriminate Hfin; try contradiction;
      injection Hfin as _ <- _ _; simpl; tauto.
  - left. eapply field_scalar; [exact Hn | exact Hv].
Qed.

Lemma nested_references_are_flat_witness :
  exists rep members,
    to_representation sample.ctx WirelessLinkSerializer sample.ptp_link
    = inr rep /\
    In ("interface_a", JObj members) rep /\ flat members.
Proof.
  do 2 eexists. split; [reflexivity |]. split; [simpl; tauto |].
  destruct (nested_references_are_flat sample.ctx WirelessLinkSerializer
              sample.ptp_link _ (or_intror (or_introl eq_refl)) eq_refl
              "interface_a"
              (JObj (reference "https://netbox.example/api"
                       "/dcim-api:interface-detail/11/" 11
                       sample.interface_x)))
    as [Hs | (members & Hm & Hflat)].
  - simpl. tauto.
  - discriminate Hs.
  - injection Hm as <-. exact Hflat.
Defined.

(* ===================================================================== *)
(** * Round trip of a network *)
(* ===================================================================== *)

#[local] Arguments strip : simpl never.
#[local] Arguments has_null_char : simpl never.
#[local] Arguments char_run_validation : simpl never.

(** A normalized text is read back as it is; an empty one only where blank
    is allowed. *)
Lemma char_reads_back partial f allow_blank s :
  normalized s = true -> (allow_blank = true \/ s <> "") ->
  char_run_validation partial f allow_blank (Some (JStr s))
  = Valid (VStr s).
Proof.
  unfold normalized. intros Hn Hblank.
  apply andb_prop in Hn as [Hstrip Hnull].
  apply String.eqb_eq in Hstrip. apply negb_true_iff in Hnull.
  unfold char_run_validation, char_to_internal_value.
  rewrite Hstrip, Hnull.
  destruct (String.eqb_spec s "") as [-> | Hne]; [| reflexivity].
  destruct Hblank as [-> | Hne]; [reflexivity | contradiction].
Qed.

(** What the write path makes of the representation of a network. *)
Lemma lan_written_back partial db base n label s d path vj vv :
  normalized s = true -> s <> "" -> normalized d = true ->
  (vj = JNull /\ vv = VNone \/
   exists v k vpath,
     vj = JObj (reference base vpath k v) /\ vv = VObj v /\
     objects db "VLAN" k = Some v) ->
  to_internal_value partial db WirelessLANSerializer
    [ ("id", JInt n); ("url", JStr (base ++ path)); ("display", JStr label);
      ("ssid", JStr s); ("description", JStr d); ("vlan", vj) ]
  = inr [ ("ssid", VStr s); ("description", VStr d); ("vlan", vv) ].
Proof.
  intros Hs Hne Hd Hv.
  unfold to_internal_value, get_fields, get_fields_from, build_field.
  simpl.
  rewrite (char_reads_back partial (CharField true false) false s Hs
             (or_intror Hne)).
  rewrite (char_reads_back partial (CharField false true) true d Hd
             (or_introl eq_refl)).
  destruct Hv as [[-> ->] | (v & k & vpath & -> & -> & Hdb)]; simpl.
  - reflexivity.
  - rewrite Hdb. reflexivity.
Qed.

(** C6 as stated fails: a saved network whose name starts with a space is
    read back with the space stripped. *)
Lemma padded_ssid_does_not_round_trip :
  persisted WirelessLAN sample.padded_net = true /\
  exists rep validated,
    to_representation sample.ctx WirelessLANSerializer sample.padded_net
    = inr rep /\
    to_internal_value false sample.db WirelessLANSerializer rep
    = inr validated /\
    getattr sample.padded_net "ssid" = Some (VStr " guest-net") /\
    assoc "ssid" validated = Some (VStr "guest-net").
Proof.
  split; [reflexivity |]. do 2 eexists.
  split; [reflexivity |]. split; [reflexivity |]. split; reflexivity.
Qed.

(** C6, as amended.  Take a saved network in a usable context whose name
    is not empty, whose name and description are normalized (stripping
    changes nothing, no null character) and whose VLAN, if any, is found
    under its identifier in the persistence layer.  Then it has a
    representation, the write path accepts that representation, partial or
    not, and the validated data holds exactly [ssid], [description] and
    [vlan], each with the value the network has. *)
Theorem network_round_trip ctx partial db obj s d :
  usable ctx -> persisted WirelessLAN obj = true ->
  getattr obj "ssid" = Some (VStr s) ->
  getattr obj "description" = Some (VStr d) ->
  s <> "" -> normalized s = true -> normalized d = true ->
  (forall v k, getattr obj "vlan" = Some (VObj v) -> pk_of v = Some k ->
               objects db "VLAN" k = Some v) ->
  exists rep validated,
    to_representation ctx WirelessLANSerializer obj = inr rep /\
    to_internal_value partial db WirelessLANSerializer rep = inr validated /\
    keys validated = [ "ssid"; "description"; "vlan" ] /\
    forall name, In name [ "ssid"; "description"; "vlan" ] ->
                 assoc name validated = getattr obj name.
Proof.
  intros Hctx Hp Hs Hd Hne Hns Hnd Hdb.
  destruct (lan_represented ctx obj Hctx Hp)
    as (base & n & s' & d' & path & vj & _ & _ & Hs' & Hd' & _ & Hv & Hrep).
  assert (s' = s) as -> by congruence.
  assert (d' = d) as -> by congruence.
  assert (Hvv : exists vv,
             getattr obj "vlan" = Some vv /\
             (vj = JNull /\ vv = VNone \/
              exists v k vpath,
                vj = JObj (reference base vpath k v) /\ vv = VObj v /\
                objects db "VLAN" k = Some v)).
  { destruct Hv as [[Hn ->] | (v & k & vpath & Hv & Hk & _ & ->)].
    - exists VNone. split; [exact Hn | now left].
    - exists (VObj v). split; [exact Hv |]. right.
      exists v, k, vpath. repeat split. now apply Hdb. }
  destruct Hvv as (vv & Hgv & Hvv).
  eexists. eexists. split; [exact Hrep |].
  split; [apply lan_written_back with (vv := vv); assumption |].
  split; [reflexivity |].
  intros name [<- | [<- | [<- | []]]]; simpl; congruence.
Qed.

Lemma network_round_trip_witness :
  usable sample.ctx /\ persisted WirelessLAN sample.office_net = true /\
  normalized "office" = true /\ normalized "second floor" = true /\
  exists rep validated,
    to_representation sample.ctx WirelessLANSerializer sample.office_net
    = inr rep /\
    to_internal_value false sample.db WirelessLANSerializer rep
    = inr validated /\
    keys validated = [ "ssid"; "description"; "vlan" ] /\
    forall name, In name [ "ssid"; "description"; "vlan" ] ->
                 assoc name validated = getattr sample.office_net name.
Proof.
  split; [exact sample_ctx_usable |]. split; [reflexivity |].
  split; [reflexivity |]. split; [reflexivity |].
  apply (network_round_trip sample.ctx false sample.db sample.office_net
           "office" "second floor").
  - exact sample_ctx_usable.
  - reflexivity.
  - reflexivity.
  - reflexivity.
  - discriminate.
  - reflexivity.
  - reflexivity.
  - intros v k Hv Hk. injection Hv as <-. injection Hk as <-. reflexivity.
Defined.

(* ===================================================================== *)
(** * Further properties of the read path *)
(* ===================================================================== *)

(** The keys of a representation are the names of the fields the loop
    keeps, in field order. *)
Lemma represent_fields_keys ctx nested fields obj rep :
  represent_fields ctx nested fields obj = inr rep ->
  keys rep = keys (filter (kept obj) fields).
Proof.
  revert rep. induction fields as [| [n f] fields IH]; simpl; intros rep H.
  - injection H as <-. reflexivity.
  - apply bind_inr in H as (a & Ha & H).
    unfold kept at 1. simpl. unfold get_attribute in Ha.
    destruct (source_star f); simpl.
    + injection Ha as <-.
      apply bind_inr in H as (j & _ & H).
      apply bind_inr in H as (rest & Hrest & H). injection H as <-.
      simpl. f_equal. now apply IH.
    + destruct (getattr obj n) as [v |]; simpl.
      * injection Ha as <-. destruct v.
        1: apply bind_inr in H as (rest & Hrest & H).
        2-4: apply bind_inr in H as (j & _ & H);
             apply bind_inr in H as (rest & Hrest & H).
        all: injection H as <-; simpl; f_equal; now apply IH.
      * destruct (allow_null f); simpl.
        -- injection Ha as <-.
           apply bind_inr in H as (rest & Hrest & H). injection H as <-.
           simpl. f_equal. now apply IH.
        -- destruct (required f); simpl; [discriminate Ha |].
           injection Ha as <-. now apply IH.
Qed.

(** The keys of whatever either serializer produces, for any object at
    all: the names of [Meta.fields] in order, [description] being left out
    exactly when the object has no such attribute.  No other key is ever
    omitted and none is ever added. *)
Theorem keys_of_any_representation ctx cls obj rep :
  In cls [ WirelessLANSerializer; WirelessLinkSerializer ] ->
  to_representation ctx cls obj = inr rep ->
  keys rep
  = filter (fun name => negb (String.eqb name "description")
                        || is_some (getattr obj "description"))
      (Meta_fields cls).
Proof.
  intros Hcls H. unfold to_representation in H.
  assert (Hd : depth cls = 2%nat)
    by (destruct Hcls as [<- | [<- | []]]; reflexivity).
  rewrite Hd in H. simpl in H.
  apply bind_inr in H as (fields & Hf & H).
  rewrite (represent_fields_keys _ _ _ _ _ H).
  destruct Hcls as [<- | [<- | []]]; injection Hf as <-; simpl;
    unfold kept; simpl;
    destruct (getattr obj "description"); simpl;
    repeat match goal with
           | |- context [ is_some ?o ] => destruct o; simpl
           end; reflexivity.
Qed.

Lemma keys_of_any_representation_witness :
  exists rep,
    to_representation sample.ctx WirelessLANSerializer edge.bare = inr rep /\
    keys rep = [ "id"; "url"; "display"; "ssid"; "vlan" ].
Proof.
  eexists. split; [reflexivity |].
  apply (keys_of_any_representation sample.ctx WirelessLANSerializer
           edge.bare); [simpl; tauto | reflexivity].
Defined.

Lemma represent_fields_listed ctx nested fields o1 o2 :
  pk_of o1 = pk_of o2 -> str_of o1 = str_of o2 ->
  (forall name, In name (keys fields) -> getattr o1 name = getattr o2 name) ->
  represent_fields ctx nested fields o1 = represent_fields ctx nested fields o2.
Proof.
  intros Hpk Hstr.
  induction fields as [| [n f] fields IH]; simpl; intros Hattr;
    [reflexivity |].
  rewrite IH by (intros m Hm; apply Hattr; now right).
  unfold get_attribute. rewrite (Hattr n) by now left.
  destruct (source_star f) eqn:Hstar; [| reflexivity].
  destruct f; try discriminate Hstar; simpl.
  - now rewrite (get_url_same_state ctx view_name o1 o2 Hpk).
  - now rewrite Hstr.
Qed.

(** Attributes outside the allow-list cannot influence the output: for
    any serializer class, two objects with the same primary key and label
    that agree on the attributes named in [Meta.fields] get the same
    result from the read path, whatever else they hold. *)
Theorem unlisted_attributes_do_not_interfere ctx cls o1 o2 :
  pk_of o1 = pk_of o2 -> str_of o1 = str_of o2 ->
  (forall name, In name (Meta_fields cls) ->
                getattr o1 name = getattr o2 name) ->
  to_representation ctx cls o1 = to_representation ctx cls o2.
Proof.
  intros Hpk Hstr Hattr. unfold to_representation.
  destruct (depth cls) as [| level]; simpl; [reflexivity |].
  destruct (get_fields cls) as [e | fields] eqn:Hf; simpl; [reflexivity |].
  apply represent_fields_listed; try assumption.
  intros name Hname. apply Hattr.
  now rewrite <- (get_fields_keys cls fields Hf).
Qed.

Lemma unlisted_attributes_do_not_interfere_witness :
  getattr sample.ptp_link "status" <> getattr edge.quiet_link "status" /\
  to_representation sample.ctx WirelessLinkSerializer sample.ptp_link
  = to_representation sample.ctx WirelessLinkSerializer edge.quiet_link.
Proof.
  split; [discriminate |].
  apply unlisted_attributes_do_not_interfere; try reflexivity.
  intros name Hname. simpl in Hname.
  repeat destruct Hname as [<- | Hname]; try reflexivity. contradiction.
Defined.

(** Without a request in the context the read path of either serializer
    fails for every object, at the self-link field. *)
Theorem read_path_needs_request ctx cls obj :
  In cls [ WirelessLANSerializer; WirelessLinkSerializer ] ->
  request ctx = None ->
  to_representation ctx cls obj = inl (AssertionError "request").
Proof.
  intros Hcls Hreq.
  destruct Hcls as [<- | [<- | []]];
    unfold to_representation, to_representation_at, get_fields,
      get_fields_from, build_field; simpl;
    unfold get_attribute; simpl; unfold get_url, pk_value; rewrite Hreq;
    destruct (pk_of obj); reflexivity.
Qed.

Lemma read_path_needs_request_witness :
  to_representation edge.no_request WirelessLinkSerializer sample.ptp_link
  = inl (AssertionError "request").
Proof.
  apply read_path_needs_request; [simpl; tauto | reflexivity].
Defined.

(** An object that was never saved has no identifier and no self-link:
    whenever either serializer produces a representation for it, [id] and
    [url] are both null there. *)
Theorem unsaved_object_has_null_identity ctx cls obj rep :
  In cls [ WirelessLANSerializer; WirelessLinkSerializer ] ->
  pk_of obj = None ->
  to_representation ctx cls obj = inr rep ->
  assoc "id" rep = Some JNull /\ assoc "url" rep = Some JNull.
Proof.
  intros Hcls Hpk H.
  assert (exists view,
             In (cls, view)
                [ (WirelessLANSerializer, "wireless-api:wirelesslan-detail");
                  (WirelessLinkSerializer,
                   "wireless-api:wirelesslink-detail") ]) as [view Hview].
  { destruct Hcls as [<- | [<- | []]]; eexists; simpl; eauto. }
  destruct (url_of_serializer _ _ _ _ _ Hview H) as (u & Hu & Ha).
  split.
  - unfold to_representation in H.
    destruct Hcls as [<- | [<- | []]]; simpl in H;
      unfold get_attribute in H; simpl in H; unfold pk_value in H;
      rewrite Hpk in H;
      apply bind_inr in H as (rest & _ & H); injection H as <-;
      reflexivity.
  - unfold get_url in Hu. destruct (request ctx); [| discriminate Hu].
    rewrite Hpk in Hu. injection Hu as <-. exact Ha.
Qed.

Lemma unsaved_object_has_null_identity_witness :
  pk_of edge.draft_net = None /\
  exists rep,
    to_representation sample.ctx WirelessLANSerializer edge.draft_net
    = inr rep /\
    assoc "id" rep = Some JNull /\ assoc "url" rep = Some JNull.
Proof.
  split; [reflexivity |]. eexists. split; [reflexivity |].
  apply (unsaved_object_has_null_identity sample.ctx WirelessLANSerializer
           edge.draft_net); [simpl; tauto | reflexivity | reflexivity].
Defined.




(* ===================================================================== *)
(** * Further properties of the write path *)
(* ===================================================================== *)

#[local] Arguments run_validation : simpl never.

(** The validation loop reads the input only under the names of its
    writable fields. *)
Lemma validate_fields_writable partial db fields data1 data2 :
  (forall n f, In (n, f) fields -> read_only f = false ->
               assoc n data1 = assoc n data2) ->
  validate_fields partial db fields data1
  = validate_fields partial db fields data2.
Proof.
  induction fields as [| [n f] fields IH]; simpl; intros H; [reflexivity |].
  rewrite IH by (intros m g Hm; apply H; now right).
  destruct (read_only f) eqn:Hro; [reflexivity |].
  rewrite (H n f) by (auto; now left). reflexivity.
Qed.

Lemma to_internal_value_writable partial db cls fields data1 data2 :
  get_fields cls = inr fields ->
  (forall n f, In (n, f) fields -> read_only f = false ->
               assoc n data1 = assoc n data2) ->
  to_internal_value partial db cls data1
  = to_internal_value partial db cls data2.
Proof.
  intros Hf H. unfold to_internal_value. rewrite Hf. unfold bind.
  now rewrite (validate_fields_writable partial db fields data1 data2 H).
Qed.

(** The validated data holds values for fields only. *)
Lemma validate_fields_value_keys partial db fields data n :
  In n (keys (fst (validate_fields partial db fields data))) ->
  In n (keys fields).
Proof.
  induction fields as [| [n' f'] fields IH]; simpl; [auto |].
  destruct (validate_fields partial db fields data) as [values errors].
  simpl in IH.
  destruct (read_only f'); [auto |].
  destruct (run_validation partial db f' (assoc n' data)); simpl; auto.
  intros [-> | H]; auto.
Qed.

(** What the validated data holds under the name of a writable field. *)
Lemma validate_fields_value partial db fields data n f :
  NoDup (keys fields) -> In (n, f) fields -> read_only f = false ->
  assoc n (fst (validate_fields partial db fields data))
  = match run_validation partial db f (assoc n data) with
    | Valid v => Some v
    | _ => None
    end.
Proof.
  induction fields as [| [n' f'] fields IH]; simpl; intros Hnd Hin Hro;
    [contradiction |].
  inversion Hnd as [| ? ? Hnotin Hnd']; subst.
  pose proof (validate_fields_value_keys partial db fields data) as Hkeys.
  destruct (validate_fields partial db fields data) as [values errors].
  simpl in IH, Hkeys.
  destruct Hin as [[= -> ->] | Hin].
  - rewrite Hro.
    assert (Hnone : assoc n values = None).
    { destruct (assoc n values) as [v |] eqn:E; [| reflexivity].
      exfalso. apply Hnotin, Hkeys. apply assoc_In in E.
      change n with (fst (n, v)). now apply in_map. }
    destruct (run_validation partial db f (assoc n data)); simpl;
      [now rewrite String.eqb_refl | exact Hnone | exact Hnone].
  - assert (Hne : n <> n').
    { intros ->. apply Hnotin. change n' with (fst (n', f)).
      now apply in_map. }
    rewrite <- (IH Hnd' Hin Hro).
    destruct (read_only f'); [reflexivity |].
    destruct (run_validation partial db f' (assoc n' data)); simpl;
      try reflexivity.
    destruct (String.eqb_spec n n'); [contradiction | reflexivity].
Qed.

(** A valid input has no invalid field. *)
Lemma to_internal_value_valid partial db cls fields data validated n f :
  get_fields cls = inr fields -> NoDup (keys fields) ->
  In (n, f) fields -> read_only f = false ->
  to_internal_value partial db cls data = inr validated ->
  assoc n validated
  = match run_validation partial db f (assoc n data) with
    | Valid v => Some v
    | _ => None
    end
  /\ forall code, run_validation partial db f (assoc n data) <> Invalid code.
Proof.
  intros Hf Hnd Hin Hro H. unfold to_internal_value in H. rewrite Hf in H.
  simpl in H.
  pose proof (validate_fields_value partial db fields data n f Hnd Hin Hro)
    as Hv.
  pose proof (validate_fields_reports partial db fields data n f) as He.
  destruct (validate_fields partial db fields data) as [values errors].
  destruct errors as [| e errors]; [| discriminate H].
  injection H as <-. split; [exact Hv |].
  intros code Hc. exact (He code Hin Hro Hc).
Qed.

(** The bound fields of the two serializers. *)
Lemma lan_fields :
  get_fields WirelessLANSerializer
  = inr [ ("id", IntegerField);
          ("url", HyperlinkedIdentityField "wireless-api:wirelesslan-detail");
          ("display", SerializerMethodField);
          ("ssid", CharField true false);
          ("description", CharField false true);
          ("vlan", Nested NestedVLANSerializer false true) ].
Proof. reflexivity. Qed.

Lemma link_fields :
  get_fields WirelessLinkSerializer
  = inr [ ("id", IntegerField);
          ("url", HyperlinkedIdentityField "wireless-api:wirelesslink-detail");
          ("display", SerializerMethodField);
          ("interface_a", Nested NestedInterfaceSerializer true false);
          ("interface_b", Nested NestedInterfaceSerializer true false);
          ("ssid", CharField true false);
          ("description", CharField false true) ].
Proof. reflexivity. Qed.

Ltac nodup_keys :=
  simpl; repeat constructor; simpl; intros Hdup;
  repeat destruct Hdup as [Hdup | Hdup]; try discriminate Hdup;
  try contradiction.

Ltac in_fields := simpl; tauto.

(* ===================================================================== *)
(** * Mandatory interfaces of a link *)
(* ===================================================================== *)

(** Where a reported error comes from: a writable field of that name
    whose validation failed with that code. *)
Lemma validate_fields_error_origin partial db fields data n code :
  In (n, code) (snd (validate_fields partial db fields data)) ->
  exists f, In (n, f) fields /\ read_only f = false /\
            run_validation partial db f (assoc n data) = Invalid code.
Proof.
  induction fields as [| [n' f'] fields IH]; simpl; [contradiction |].
  destruct (validate_fields partial db fields data) as [values errors].
  simpl in IH. intros Hin.
  assert (Hrest : In (n, code) errors ->
                  exists f, ((n', f') = (n, f) \/ In (n, f) fields) /\
                            read_only f = false /\
                            run_validation partial db f (assoc n data)
                            = Invalid code).
  { intros H. destruct (IH H) as (f & Hf & Hro & Hrun).
    exists f. auto. }
  destruct (read_only f') eqn:Hro; [now apply Hrest |].
  destruct (run_validation partial db f' (assoc n' data)) as [v | | c] eqn:E;
    simpl in Hin; try now apply Hrest.
  destruct Hin as [[= -> ->] | Hin]; [| now apply Hrest].
  exists f'. auto.
Qed.

(** C2, as amended.  In a usable context every saved link has a
    representation in which [interface_a] and [interface_b] are both
    present and are objects, not null.  On a write that is not a partial
    update, an input without an entry for [interface_a] or for
    [interface_b] fails validation, the missing field being reported as
    required.  On a partial update an omitted interface is skipped: no
    error is reported for it and the validated data has no entry for it. *)
Theorem link_interfaces_are_mandatory ctx db obj data :
  (usable ctx -> persisted WirelessLink obj = true ->
   exists rep a b,
     to_representation ctx WirelessLinkSerializer obj = inr rep /\
     assoc "interface_a" rep = Some (JObj a) /\
     assoc "interface_b" rep = Some (JObj b))
  /\
  (forall name, In name [ "interface_a"; "interface_b" ] ->
   assoc name data = None ->
   exists errors,
     to_internal_value false db WirelessLinkSerializer data
     = inl (ValidationError errors) /\
     In (name, "required") errors)
  /\
  (forall name, In name [ "interface_a"; "interface_b" ] ->
   assoc name data = None ->
   (forall errors,
       to_internal_value true db WirelessLinkSerializer data
       = inl (ValidationError errors) ->
       ~ In name (keys errors)) /\
   (forall validated,
       to_internal_value true db WirelessLinkSerializer data
       = inr validated ->
       assoc name validated = None)).
Proof.
  split; [| split].
  - intros Hctx Hp.
    destruct (link_represented ctx obj Hctx Hp)
      as (base & n & s & d & path & ja & jb & _ & _ & _ & _ & _
          & Ha & Hb & Hrep).
    destruct Ha as (a & ka & pa & _ & _ & _ & ->).
    destruct Hb as (b & kb & pb & _ & _ & _ & ->).
    do 3 eexists. split; [exact Hrep |]. split; reflexivity.
  - intros name Hname Hmissing.
    apply (to_internal_value_reports false db WirelessLinkSerializer _ data
             name (Nested NestedInterfaceSerializer true false) "required"
             link_fields).
    + destruct Hname as [<- | [<- | []]]; in_fields.
    + reflexivity.
    + rewrite Hmissing. reflexivity.
  - intros name Hname Hmissing. split.
    + intros errors H Hin.
      unfold to_internal_value in H. rewrite link_fields in H.
      unfold bind in H.
      pose proof (validate_fields_error_origin true db
                    [ ("id", IntegerField);
                      ("url", HyperlinkedIdentityField
                                "wireless-api:wirelesslink-detail");
                      ("display", SerializerMethodField);
                      ("interface_a",
                       Nested NestedInterfaceSerializer true false);
                      ("interface_b",
                       Nested NestedInterfaceSerializer true false);
                      ("ssid", CharField true false);
                      ("description", CharField false true) ] data name)
        as Horigin.
      destruct (validate_fields true db _ data) as [values errs].
      destruct errs as [| e errs]; [discriminate H |].
      injection H as <-. simpl in Horigin.
      unfold keys in Hin. apply in_map_iff in Hin as ([n code] & Hn & Hin).
      simpl in Hn. subst n.
      destruct (Horigin code Hin) as (f & Hf & _ & Hrun).
      rewrite Hmissing in Hrun.
      destruct Hname as [<- | [<- | []]];
        repeat destruct Hf as [Hf | Hf]; try contradiction;
        try discriminate Hf; injection Hf as <-; discriminate Hrun.
    + intros validated H.
      destruct (to_internal_value_valid true db WirelessLinkSerializer _
                  data validated name
                  (Nested NestedInterfaceSerializer true false) link_fields)
        as [Hv _]; [nodup_keys | | reflexivity | exact H |].
      * destruct Hname as [<- | [<- | []]]; in_fields.
      * rewrite Hv, Hmissing. reflexivity.
Qed.

Lemma link_interfaces_are_mandatory_witness :
  usable sample.ctx /\ persisted WirelessLink sample.ptp_link = true /\
  (exists rep a b,
     to_representation sample.ctx WirelessLinkSerializer sample.ptp_link
     = inr rep /\
     assoc "interface_a" rep = Some (JObj a) /\
     assoc "interface_b" rep = Some (JObj b)) /\
  (exists errors,
     to_internal_value false sample.db WirelessLinkSerializer
       [ ("interface_a", JObj [ ("id", JInt 11) ]); ("ssid", JStr "ptp-link") ]
     = inl (ValidationError errors) /\
     In ("interface_b", "required") errors) /\
  (exists validated,
     to_internal_value true sample.db WirelessLinkSerializer
       [ ("interface_a", JObj [ ("id", JInt 11) ]); ("ssid", JStr "ptp-link") ]
     = inr validated /\
     assoc "interface_b" validated = None).
Proof.
  split; [exact sample_ctx_usable |]. split; [reflexivity |].
  split; [| split].
  - apply (proj1 (link_interfaces_are_mandatory sample.ctx sample.db
                    sample.ptp_link [])).
    + exact sample_ctx_usable.
    + reflexivity.
  - apply (proj1 (proj2 (link_interfaces_are_mandatory sample.ctx sample.db
                           sample.ptp_link _)) "interface_b").
    + simpl. tauto.
    + reflexivity.
  - eexists. split; [reflexivity |].
    apply (proj2 (proj2 (link_interfaces_are_mandatory sample.ctx sample.db
                           sample.ptp_link
                           [ ("interface_a", JObj [ ("id", JInt 11) ]);
                             ("ssid", JStr "ptp-link") ]))
             "interface_b").
    + simpl. tauto.
    + reflexivity.
    + reflexivity.
Defined.

(** C2 as stated fails on a partial update: an input that names neither
    interface is valid there. *)
Lemma partial_update_may_omit_interfaces :
  assoc "interface_a" [ ("description", JStr "moved to the roof") ] = None /\
  assoc "interface_b" [ ("description", JStr "moved to the roof") ] = None /\
  to_internal_value true sample.db WirelessLinkSerializer
    [ ("description", JStr "moved to the roof") ]
  = inr [ ("description", VStr "moved to the roof") ].
Proof. repeat split. Qed.

(** The server-assigned fields cannot be written: entries under [id],
    [url] and [display] are never read.  Two inputs that agree on the
    writable names of a serializer (ssid, description, vlan for a network;
    interface_a, interface_b, ssid, description for a link) get the same
    outcome, partial update or not. *)
Theorem server_assigned_fields_are_not_written partial db cls names d1 d2 :
  In (cls, names)
     [ (WirelessLANSerializer, [ "ssid"; "description"; "vlan" ]);
       (WirelessLinkSerializer,
        [ "interface_a"; "interface_b"; "ssid"; "description" ]) ] ->
  (forall n, In n names -> assoc n d1 = assoc n d2) ->
  to_internal_value partial db cls d1 = to_internal_value partial db cls d2.
Proof.
  intros Hcls Hagree.
  destruct Hcls as [Hcls | [Hcls | []]]; injection Hcls as <- <-;
    [apply (to_internal_value_writable _ _ _ _ _ _ lan_fields)
    | apply (to_internal_value_writable _ _ _ _ _ _ link_fields)];
    intros n f Hin Hro; simpl in Hin;
    repeat destruct Hin as [Hin | Hin]; try contradiction;
    injection Hin as <- <-; try discriminate Hro;
    apply Hagree; simpl; tauto.
Qed.

Lemma server_assigned_fields_are_not_written_witness :
  to_internal_value false sample.db WirelessLANSerializer
    [ ("id", JInt 99); ("url", JStr "https://elsewhere/");
      ("display", JBool true); ("ssid", JStr "office") ]
  = to_internal_value false sample.db WirelessLANSerializer
      [ ("ssid", JStr "office") ].
Proof.
  apply (server_assigned_fields_are_not_written false sample.db
           WirelessLANSerializer [ "ssid"; "description"; "vlan" ]).
  - simpl. tauto.
  - intros n Hn. simpl in Hn.
    repeat destruct Hn as [<- | Hn]; try reflexivity. contradiction.
Defined.

(** An explicit null for an interface of a link is refused, also on a
    partial update: the input fails validation and the field is reported
    with the code [null]. *)
Theorem null_interface_is_refused partial db data name :
  In name [ "interface_a"; "interface_b" ] ->
  assoc name data = Some JNull ->
  exists errors,
    to_internal_value partial db WirelessLinkSerializer data
    = inl (ValidationError errors) /\
    In (name, "null") errors.
Proof.
  intros Hname Hnull.
  apply (to_internal_value_reports partial db WirelessLinkSerializer _ data
           name (Nested NestedInterfaceSerializer true false) "null"
           link_fields).
  - destruct Hname as [<- | [<- | []]]; in_fields.
  - reflexivity.
  - rewrite Hnull. reflexivity.
Qed.

Lemma null_interface_is_refused_witness :
  exists errors,
    to_internal_value true sample.db WirelessLinkSerializer
      [ ("interface_b", JNull) ]
    = inl (ValidationError errors) /\
    In ("interface_b", "null") errors.
Proof.
  apply (null_interface_is_refused true sample.db
           [ ("interface_b", JNull) ] "interface_b");
    [simpl; tauto | reflexivity].
Defined.

(** The VLAN of a network is optional and nullable on write: in a valid
    input, a missing [vlan] leaves the validated data without [vlan], and
    an explicit null puts [None] there. *)
Theorem vlan_is_optional_and_nullable partial db data validated :
  to_internal_value partial db WirelessLANSerializer data = inr validated ->
  (assoc "vlan" data = None -> assoc "vlan" validated = None) /\
  (assoc "vlan" data = Some JNull -> assoc "vlan" validated = Some VNone).
Proof.
  intros H.
  destruct (to_internal_value_valid partial db WirelessLANSerializer _ data
              validated "vlan" (Nested NestedVLANSerializer false true)
              lan_fields) as [Hv _];
    [nodup_keys | in_fields | reflexivity | exact H |].
  rewrite Hv. split; intros ->.
  - unfold run_validation, validate_empty_values. simpl.
    destruct partial; reflexivity.
  - reflexivity.
Qed.

Lemma vlan_is_optional_and_nullable_witness :
  exists validated,
    to_internal_value true sample.db WirelessLANSerializer
      [ ("vlan", JNull) ] = inr validated /\
    assoc "vlan" validated = Some VNone.
Proof.
  eexists. split; [reflexivity |].
  apply (vlan_is_optional_and_nullable true sample.db [ ("vlan", JNull) ]);
    reflexivity.
Defined.

(** A keyword the model does not know makes the constructor fail. *)
Lemma unexpected_keyword_found model kwargs k v :
  In (k, v) kwargs -> assoc k (models.fields model) = None ->
  exists k', unexpected_keyword model kwargs = Some k'.
Proof.
  intros Hin Hk. induction kwargs as [| [k0 v0] kwargs IH]; simpl;
    [contradiction |].
  destruct (assoc k0 (models.fields model)) eqn:E; [| eauto].
  destruct Hin as [[= -> ->] | Hin]; [congruence | now apply IH].
Qed.

(** Nothing can be created through the link serializer.  Its [Meta.model]
    is [WirelessLAN], so a valid input, which must name [interface_a], is
    handed to the constructor of the network model, and that constructor
    knows no such keyword: [save] ends in a validation error or in a
    [TypeError], never in a new row. *)
Theorem link_serializer_cannot_create db data :
  (exists errors,
      save db WirelessLinkSerializer data = inl (ValidationError errors)) \/
  (exists keyword,
      save db WirelessLinkSerializer data = inl (TypeError keyword)).
Proof.
  unfold save.
  destruct (to_internal_value false db WirelessLinkSerializer data)
    as [e | validated] eqn:H.
  - left. unfold to_internal_value in H. rewrite link_fields in H.
    unfold bind in H.
    destruct (validate_fields false db _ data) as [values errors].
    destruct errors; [discriminate H |]. injection H as <-. simpl. eauto.
  - right. simpl.
    destruct (to_internal_value_valid false db WirelessLinkSerializer _ data
                validated "interface_a"
                (Nested NestedInterfaceSerializer true false) link_fields)
      as [Hv Hok]; [nodup_keys | in_fields | reflexivity | exact H |].
    assert (Hin : exists v, In ("interface_a", v) validated).
    { destruct (run_validation false db
                  (Nested NestedInterfaceSerializer true false)
                  (assoc "interface_a" data)) as [v | | code] eqn:E.
      - exists v. now apply assoc_In.
      - exfalso. unfold run_validation, validate_empty_values in E.
        destruct (assoc "interface_a" data) as [[] |]; simpl in E;
          try discriminate E;
          unfold nested_to_internal_value in E;
          repeat match type of E with
                 | context [ match ?x with _ => _ end ] => destruct x
                 end; discriminate E.
      - exfalso. now apply (Hok code). }
    destruct Hin as [v Hin].
    destruct (unexpected_keyword_found WirelessLAN validated "interface_a" v
                Hin eq_refl) as [k Hk].
    exists k. unfold create. simpl. rewrite Hk. reflexivity.
Qed.

(** The name of a network is stored stripped and is never empty: when a
    valid input gives [ssid] as a string, the validated data holds that
    string without its surrounding white space, and what is left is not
    empty and holds no null character. *)
Theorem ssid_is_stored_stripped partial db data validated s :
  to_internal_value partial db WirelessLANSerializer data = inr validated ->
  assoc "ssid" data = Some (JStr s) ->
  assoc "ssid" validated = Some (VStr (strip s)) /\
  strip s <> "" /\ has_null_char (strip s) = false.
Proof.
  intros H Hs.
  destruct (to_internal_value_valid partial db WirelessLANSerializer _ data
              validated "ssid" (CharField true false) lan_fields)
    as [Hv Hok]; [nodup_keys | in_fields | reflexivity | exact H |].
  rewrite Hs in Hv, Hok.
  unfold run_validation, char_run_validation, char_to_internal_value
    in Hv, Hok.
  destruct (String.eqb_spec (strip s) "") as [Hblank | Hne].
  - exfalso. now apply (Hok "blank").
  - destruct (has_null_char (strip s)) eqn:Hnull.
    + exfalso. now apply (Hok "null_characters_not_allowed").
    + auto.
Qed.

Lemma ssid_is_stored_stripped_witness :
  exists validated,
    to_internal_value false sample.db WirelessLANSerializer
      [ ("ssid", JStr "  lobby ") ] = inr validated /\
    assoc "ssid" validated = Some (VStr "lobby").
Proof.
  eexists. split; [reflexivity |].
  apply (ssid_is_stored_stripped false sample.db
           [ ("ssid", JStr "  lobby ") ] _ "  lobby "); reflexivity.
Defined.

(* ===================================================================== *)
(** * Stripping *)
(* ===================================================================== *)

#[local] Arguments strip : simpl nomatch.
#[local] Arguments String.append !s1 s2 : simpl nomatch.

Lemma append_empty_r s : s ++ "" = s.
Proof. induction s as [| c s IH]; simpl; [| rewrite IH]; reflexivity. Qed.

Lemma append_associative a b c : (a ++ b) ++ c = a ++ (b ++ c).
Proof. induction a as [| x a IH]; simpl; [| rewrite IH]; reflexivity. Qed.

Lemma rev_string_acc acc s : rev_string acc s = rev_string "" s ++ acc.
Proof.
  revert acc. induction s as [| c s IH]; intros acc; simpl; [reflexivity |].
  rewrite (IH (String c acc)), (IH (String c "")), append_associative.
  reflexivity.
Qed.

Lemma rev_string_append s t :
  rev_string "" (s ++ t) = rev_string "" t ++ rev_string "" s.
Proof.
  induction s as [| c s IH]; simpl.
  - now rewrite append_empty_r.
  - rewrite (rev_string_acc (String c "") (s ++ t)), IH,
      (rev_string_acc (String c "") s), append_associative.
    reflexivity.
Qed.

Lemma rev_string_involutive s : rev_string "" (rev_string "" s) = s.
Proof.
  induction s as [| c s IH]; simpl; [reflexivity |].
  rewrite (rev_string_acc (String c "") s), rev_string_append, IH.
  reflexivity.
Qed.

Lemma lstrip_idempotent s : lstrip (lstrip s) = lstrip s.
Proof.
  induction s as [| c s IH]; simpl; [reflexivity |].
  destruct (isspace c) eqn:E; [exact IH |]. simpl. now rewrite E.
Qed.

Lemma rstrip_idempotent s : rstrip (rstrip s) = rstrip s.
Proof.
  unfold rstrip. now rewrite rev_string_involutive, lstrip_idempotent.
Qed.

Lemma lstrip_length s : (String.length (lstrip s) <= String.length s)%nat.
Proof.
  induction s as [| c s IH]; simpl; [constructor |].
  destruct (isspace c); simpl; [| constructor].
  now apply le_S.
Qed.

(** A text that [lstrip] leaves alone is empty or starts with a character
    that is no white space. *)
Lemma lstrip_fixed_head c s :
  lstrip (String c s) = String c s -> isspace c = false.
Proof.
  simpl. destruct (isspace c); [| reflexivity].
  intros H. pose proof (lstrip_length s) as Hlen. rewrite H in Hlen.
  simpl in Hlen. exfalso. exact (PeanoNat.Nat.nle_succ_diag_l _ Hlen).
Qed.

Lemma lstrip_keeps_last u c :
  isspace c = false ->
  exists u', lstrip (u ++ String c "") = u' ++ String c "".
Proof.
  intros Hc. induction u as [| a u IH]; simpl.
  - rewrite Hc. now exists "".
  - destruct (isspace a); [exact IH |]. now exists (String a u).
Qed.

Lemma rstrip_keeps_clean_head s : lstrip s = s -> lstrip (rstrip s) = rstrip s.
Proof.
  destruct s as [| c s]; [reflexivity |].
  intros H. apply lstrip_fixed_head in H.
  destruct (lstrip_keeps_last (rev_string "" s) c H) as [u' Hu'].
  assert (E : rstrip (String c s) = String c (rev_string "" u')).
  { unfold rstrip.
    change (rev_string "" (String c s)) with (rev_string (String c "") s).
    rewrite (rev_string_acc (String c "") s), Hu', rev_string_append.
    reflexivity. }
  rewrite E. simpl. now rewrite H.
Qed.

(** Stripping twice is stripping once. *)
Lemma strip_idempotent s : strip (strip s) = strip s.
Proof.
  unfold strip.
  rewrite (rstrip_keeps_clean_head (lstrip s) (lstrip_idempotent s)).
  apply rstrip_idempotent.
Qed.

Lemma normalized_strip s :
  has_null_char (strip s) = false -> normalized (strip s) = true.
Proof.
  intros H. unfold normalized.
  now rewrite strip_idempotent, String.eqb_refl, H.
Qed.

(** ** Plain text *)

Lemma plain_append a b : plain (a ++ b) = plain a && plain b.
Proof.
  induction a as [| c a IH]; simpl; [reflexivity |].
  rewrite IH. now rewrite !andb_assoc.
Qed.

Lemma plain_rev s : plain (rev_string "" s) = plain s.
Proof.
  induction s as [| c s IH]; simpl; [reflexivity |].
  rewrite (rev_string_acc (String c "") s), plain_append, IH. simpl.
  rewrite andb_true_r. apply andb_comm.
Qed.

Lemma plain_lstrip s : plain s = true -> lstrip s = s.
Proof.
  destruct s as [| c s]; simpl; [reflexivity |].
  intros H. apply andb_prop in H as [H _]. apply andb_prop in H as [H _].
  apply negb_true_iff in H. now rewrite H.
Qed.

Lemma plain_no_null s : plain s = true -> has_null_char s = false.
Proof.
  induction s as [| c s IH]; simpl; [reflexivity |].
  intros H. apply andb_prop in H as [H Hs]. apply andb_prop in H as [_ H].
  apply negb_true_iff in H. unfold has_null_char; fold has_null_char.
  rewrite H. now apply IH.
Qed.

Lemma plain_normalized s : plain s = true -> normalized s = true.
Proof.
  intros H. unfold normalized, strip, rstrip.
  rewrite (plain_lstrip s H).
  rewrite (plain_lstrip (rev_string "" s)) by now rewrite plain_rev.
  now rewrite rev_string_involutive, String.eqb_refl, (plain_no_null s H).
Qed.

Lemma plain_digits d : plain (NilEmpty.string_of_uint d) = true.
Proof. induction d; simpl; try rewrite IHd; reflexivity. Qed.

Lemma plain_str_int n : plain (str_int n) = true /\ str_int n <> "".
Proof.
  unfold str_int, NilZero.string_of_int, NilZero.string_of_uint.
  destruct (Z.to_int n) as [d | d]; destruct d; simpl;
    rewrite ?plain_digits; split; (reflexivity || discriminate).
Qed.

(* ===================================================================== *)
(** * Created networks *)
(* ===================================================================== *)

(** What a character field accepts is stored as normalized text, not
    empty unless the field allows blank. *)
Lemma char_valid partial db required allow_blank data v :
  run_validation partial db (CharField required allow_blank) data = Valid v ->
  exists t, v = VStr t /\ normalized t = true /\
            (allow_blank = false -> t <> "").
Proof.
  unfold run_validation, char_run_validation, validate_empty_values,
    char_to_internal_value.
  destruct data as [[| b | n | s | members] |]; simpl; intros H;
    try discriminate H.
  - injection H as <-. destruct (plain_str_int n) as [Hp Hne].
    exists (str_int n). split; [reflexivity |].
    split; [now apply plain_normalized | intros _; exact Hne].
  - destruct (String.eqb_spec (strip s) "") as [Hblank | Hne].
    + destruct allow_blank; [| discriminate H]. injection H as <-.
      exists "". split; [reflexivity |]. split; [reflexivity | discriminate].
    + destruct (has_null_char (strip s)) eqn:Hnull; [discriminate H |].
      injection H as <-. exists (strip s). split; [reflexivity |].
      split; [now apply normalized_strip | intros _; exact Hne].
  - destruct partial; [discriminate H |].
    destruct required; discriminate H.
Qed.

Lemma char_required partial db allow_blank data :
  partial = false ->
  run_validation partial db (CharField true allow_blank) data <> Skip.
Proof.
  intros ->.
  unfold run_validation, char_run_validation, validate_empty_values,
    char_to_internal_value.
  destruct data as [[| b | n | s | members] |]; simpl; try discriminate.
  destruct (String.eqb (strip s) ""); [destruct allow_blank; discriminate |].
  destruct (has_null_char (strip s)); discriminate.
Qed.

(** What a nested serializer accepts is [None] or a row found in the
    persistence layer under the model of the nested serializer. *)
Lemma nested_valid partial db cls required allow_null data v :
  run_validation partial db (Nested cls required allow_null) data = Valid v ->
  v = VNone \/
  exists o k, v = VObj o /\
              objects db (models.name (Meta_model cls)) k = Some o.
Proof.
  unfold run_validation, validate_empty_values, nested_to_internal_value.
  destruct data as [[| b | n | s | members] |]; simpl; intros H;
    try discriminate H.
  - destruct allow_null; [| discriminate H]. injection H as <-. now left.
  - destruct (assoc "id" members) as [[| b | n | s | m] |];
      try discriminate H.
    destruct (objects db (models.name (Meta_model cls)) n) as [o |] eqn:E;
      [| discriminate H].
    injection H as <-. right. eauto.
  - destruct partial; [discriminate H |].
    destruct required; discriminate H.
Qed.

(** The row [save] creates through the network serializer. *)
Lemma created_network_shape db data obj :
  save db WirelessLANSerializer data = inr obj ->
  exists s d vv,
    obj = Instance "WirelessLAN" (Some (next_pk db "WirelessLAN"))
            (label_rule db "WirelessLAN"
               [ ("ssid", VStr s); ("description", VStr d); ("vlan", vv) ])
            [ ("ssid", VStr s); ("description", VStr d); ("vlan", vv) ] /\
    normalized s = true /\ s <> "" /\ normalized d = true /\
    (vv = VNone \/ exists o k, vv = VObj o /\ objects db "VLAN" k = Some o).
Proof.
  unfold save, to_internal_value. rewrite lan_fields. unfold bind at 2.
  simpl validate_fields.
  destruct (run_validation false db (Nested NestedVLANSerializer false true)
              (assoc "vlan" data)) as [v3 | | c3] eqn:E3;
    destruct (run_validation false db (CharField false true)
                (assoc "description" data)) as [v2 | | c2] eqn:E2;
    destruct (run_validation false db (CharField true false)
                (assoc "ssid" data)) as [v1 | | c1] eqn:E1;
    simpl; intros H; try discriminate H;
    try (exfalso; exact (char_required false db false _ eq_refl E1));
    destruct (char_valid _ _ _ _ _ _ E1) as (s & -> & Hs & Hne);
    specialize (Hne eq_refl);
    try (destruct (char_valid _ _ _ _ _ _ E2) as (d & -> & Hd & _));
    try (apply nested_valid in E3; simpl in E3);
    unfold create in H; simpl in H; injection H as <-.
  - exists s, d, v3. repeat split; assumption.
  - exists s, "", v3. repeat split; assumption || reflexivity.
  - exists s, d, VNone. repeat split; try assumption. now left.
  - exists s, "", VNone.
    repeat split; try assumption; try reflexivity. now left.
Qed.

(** Creation through the network serializer yields a well-formed row that
    survives the round trip.  If the persistence layer is consistent, the
    row [save] creates is a saved row of the network model; in a usable
    context it has a representation, the write path accepts that
    representation, and the validated data holds the very name,
    description and VLAN of the row. *)
Theorem created_network_round_trips ctx db data obj :
  usable ctx -> consistent db ->
  save db WirelessLANSerializer data = inr obj ->
  persisted WirelessLAN obj = true /\
  exists rep validated,
    to_representation ctx WirelessLANSerializer obj = inr rep /\
    to_internal_value false db WirelessLANSerializer rep = inr validated /\
    forall name, In name [ "ssid"; "description"; "vlan" ] ->
                 assoc name validated = getattr obj name.
Proof.
  intros Hctx Hdb Hsave.
  destruct (created_network_shape db data obj Hsave)
    as (s & d & vv & -> & Hs & Hne & Hd & Hvv).
  set (obj := Instance _ _ _ _).
  assert (Hp : persisted WirelessLAN obj = true).
  { destruct Hvv as [-> | (o & k & -> & Ho)]; [reflexivity |].
    destruct (Hdb "VLAN" k o Ho) as [Hm Hk].
    unfold persisted, obj. simpl. now rewrite Hm, Hk. }
  split; [exact Hp |].
  destruct (lan_represented ctx obj Hctx Hp)
    as (base & n & s' & d' & path & vj & _ & _ & Hs' & Hd' & _ & Hv & Hrep).
  injection Hs' as <-. injection Hd' as <-.
  exists [ ("id", JInt n); ("url", JStr (base ++ path));
           ("display", JStr (str_of obj)); ("ssid", JStr s);
           ("description", JStr d); ("vlan", vj) ], 
    [ ("ssid", VStr s); ("description", VStr d); ("vlan", vv) ].
  split; [exact Hrep |]. split.
  - apply lan_written_back; try assumption.
    destruct Hv as [[Hn ->] | (v & k & vpath & Hv & Hk & _ & ->)].
    + left. split; [reflexivity |]. now injection Hn as <-.
    + right. exists v, k, vpath. injection Hv as ->.
      repeat split.
      destruct Hvv as [Hvv | (o & k' & Hvv & Ho)]; [discriminate Hvv |].
      injection Hvv as <-.
      destruct (Hdb "VLAN" k' v Ho) as [_ Hk']. congruence.
  - intros name [<- | [<- | [<- | []]]]; reflexivity.
Qed.

Lemma sample_db_consistent : consistent sample.db.
Proof.
  intros model k o. unfold sample.db. simpl.
  destruct (String.eqb_spec model "VLAN") as [-> | _]; simpl.
  - destruct (Z.eqb_spec k 7) as [-> | _]; [| discriminate].
    now intros [= <-].
  - destruct (String.eqb_spec model "Interface") as [-> | _]; simpl;
      [| discriminate].
    destruct (Z.eqb_spec k 11) as [-> | _]; [now intros [= <-] |].
    destruct (Z.eqb_spec k 12) as [-> | _]; [now intros [= <-] |].
    discriminate.
Qed.

Lemma created_network_round_trips_witness :
  exists obj,
    save sample.db WirelessLANSerializer
      [ ("ssid", JStr " lobby "); ("vlan", JObj [ ("id", JInt 7) ]) ]
    = inr obj /\
    persisted WirelessLAN obj = true /\
    exists rep validated,
      to_representation sample.ctx WirelessLANSerializer obj = inr rep /\
      to_internal_value false sample.db WirelessLANSerializer rep
      = inr validated /\
      forall name, In name [ "ssid"; "description"; "vlan" ] ->
                   assoc name validated = getattr obj name.
Proof.
  eexists. split; [reflexivity |].
  apply (created_network_round_trips sample.ctx sample.db
           [ ("ssid", JStr " lobby "); ("vlan", JObj [ ("id", JInt 7) ]) ]).
  - exact sample_ctx_usable.
  - exact sample_db_consistent.
  - reflexivity.
Defined.
